(** * StripChromeSymbols.py: a shallow embedding and its checked properties

    The script scans the output of [xperf -a symcache -dbgid] for Chrome
    modules, computes the [.symcache] file each debug signature maps to,
    fetches and strips the PDBs that are not cached yet, hides locally built
    PDBs while xperf converts the stripped copies, and renames them back.

    The embedding follows [main] of [bin/StripChromeSymbols.py] (Python 2)
    line by line; [main] is cut into the phases its comments name, each with
    the lines it stands for.  Python strings are [string]; Python's [int] is
    [Z]; [None] is [option]'s.  The operating system is an interface ([OS])
    over an abstract world, so that a statement holds whatever the file
    system and the external tools do.  [main] runs in a monad that threads
    its local variables and the world, carries Python exceptions, and
    records every call and every printed line in a trace.

    Exceptions come from where Python raises them in this script: the calls
    to the operating system and to external tools (among them Ctrl+C, which
    is delivered while such a call runs), [int] and [sys.exit].  [print],
    [os.path.exists] and [shutil.rmtree(..., ignore_errors=True)] do not
    raise. *)

From Stdlib Require Import String Ascii List ZArith NArith Lia Bool.
From Stdlib Require Hexadecimal HexadecimalString HexadecimalZ HexadecimalPos.
From Stdlib Require Decimal DecimalString DecimalZ DecimalPos.
Import ListNotations.

#[local] Open Scope list_scope.
#[local] Open Scope string_scope.

(** ** Python string primitives *)

Module PyStr.

(** The double quote, which the script writes inside its command lines. *)
Definition dquote : ascii := "034"%char.
Definition LF : ascii := "010"%char.
Definition CR : ascii := "013"%char.

Definition quoted (s : string) : string :=
  String dquote (s ++ String dquote "").

(** Python truth value of a [str]. *)
Definition nonempty (s : string) : bool :=
  match s with EmptyString => false | String _ _ => true end.

(** [s.count(sub)]: the number of non-overlapping occurrences, scanning from
    the left; after a hit the scan resumes behind it. *)
Fixpoint count_from (skip : nat) (sub s : string) : nat :=
  match s with
  | EmptyString => 0
  | String _ s' =>
      match skip with
      | S k => count_from k sub s'
      | O => if prefix sub s
             then S (count_from (String.length sub - 1) sub s')
             else count_from 0 sub s'
      end
  end.

Definition count (s sub : string) : nat :=
  match sub with
  | EmptyString => S (String.length s)
  | String _ _ => count_from 0 sub s
  end.

(** [s.replace(old, new)]. *)
Fixpoint replace_from (skip : nat) (old new s : string) : string :=
  match s with
  | EmptyString => EmptyString
  | String c s' =>
      match skip with
      | S k => replace_from k old new s'
      | O => if prefix old s
             then new ++ replace_from (String.length old - 1) old new s'
             else String c (replace_from 0 old new s')
      end
  end.

Fixpoint interleave (new s : string) : string :=
  match s with
  | EmptyString => new
  | String c s' => new ++ String c (interleave new s')
  end.

Definition replace (s old new : string) : string :=
  match old with
  | EmptyString => interleave new s
  | String _ _ => replace_from 0 old new s
  end.

(** The characters [str.strip()] removes: space, tab, LF, VT, FF, CR. *)
Definition is_space (c : ascii) : bool :=
  let n := nat_of_ascii c in
  (n =? 32)%nat || ((9 <=? n)%nat && (n <=? 13)%nat).

Fixpoint lstrip (s : string) : string :=
  match s with
  | EmptyString => EmptyString
  | String c s' => if is_space c then lstrip s' else s
  end.

Fixpoint rstrip (s : string) : string :=
  match s with
  | EmptyString => EmptyString
  | String c s' =>
      let r := rstrip s' in
      if is_space c && negb (nonempty r) then EmptyString else String c r
  end.

Definition strip (s : string) : string := rstrip (lstrip s).

(** [s.endswith(".")] and [s[:-1]]. *)
Fixpoint endswith_char (s : string) (d : ascii) : bool :=
  match s with
  | EmptyString => false
  | String c EmptyString => Ascii.eqb c d
  | String _ s' => endswith_char s' d
  end.

Fixpoint drop_last (s : string) : string :=
  match s with
  | EmptyString => EmptyString
  | String _ EmptyString => EmptyString
  | String c s' => String c (drop_last s')
  end.

(** [s.splitlines()] of a Python 2 [str]: lines end at LF, CR or CR LF and
    the terminators are dropped. *)
Fixpoint splitlines_from (cur s : string) : list string :=
  match s with
  | EmptyString => if nonempty cur then [cur] else []
  | String c s' =>
      if Ascii.eqb c LF then cur :: splitlines_from "" s'
      else if Ascii.eqb c CR then
        match s' with
        | String c' s'' =>
            if Ascii.eqb c' LF then cur :: splitlines_from "" s''
            else cur :: splitlines_from "" s'
        | EmptyString => cur :: splitlines_from "" s'
        end
      else splitlines_from (cur ++ String c "") s'
  end.

Definition splitlines (s : string) : list string := splitlines_from "" s.

(** [sep.join(xs)]. *)
Fixpoint join (sep : string) (xs : list string) : string :=
  match xs with
  | [] => ""
  | [x] => x
  | x :: rest => x ++ sep ++ join sep rest
  end.

(** [str(n)] and ["%s" % n] of an [int]: signed decimal. *)
Definition str_of_int (n : Z) : string :=
  DecimalString.NilEmpty.string_of_int (Z.to_int n).

(** ["%x" % n]: signed hexadecimal, digits [0-9a-f], no prefix. *)
Definition hex_of_int (n : Z) : string :=
  HexadecimalString.NilEmpty.string_of_int (Z.to_hex_int n).

(** [int(s)] in base ten: surrounding white space is dropped, one sign is
    allowed, then at least one decimal digit and nothing else.  [None] is
    Python's [ValueError]. *)
Definition digits_value (d : string) : option Z :=
  match d with
  | EmptyString => None
  | String _ _ =>
      match DecimalString.NilEmpty.uint_of_string d with
      | Some u => Some (Z.of_uint u)
      | None => None
      end
  end.

Definition int_of_str (s : string) : option Z :=
  match strip s with
  | String "-" d => option_map Z.opp (digits_value d)
  | String "+" d => digits_value d
  | t => digits_value t
  end.

End PyStr.

(** ** The two regular expressions of the script

    Both patterns are a sequence of literals, greedy [.*] and capture
    groups.  [re_match] is the backtracking matcher of [re.match] for such
    a sequence: anchored at the start of the subject, each [.*] first takes
    as many characters as it can ([.] is any character but LF) and gives
    them back one at a time.  The result is the list of group boundaries. *)

Inductive re_item : Type :=
| Lit (s : string)
| DotStar
| GroupOpen
| GroupClose.

(** [strip_prefix p s] is [Some rest] when [s = p ++ rest]. *)
Fixpoint strip_prefix (p s : string) : option string :=
  match p with
  | EmptyString => Some s
  | String a p' =>
      match s with
      | EmptyString => None
      | String b s' => if Ascii.eqb a b then strip_prefix p' s' else None
      end
  end.

Fixpoint re_match (items : list re_item) (s : string) (pos : nat)
         (marks : list nat) {struct items} : option (list nat) :=
  match items with
  | [] => Some (rev marks)
  | Lit l :: rest =>
      match strip_prefix l s with
      | Some s' => re_match rest s' (pos + String.length l) marks
      | None => None
      end
  | GroupOpen :: rest => re_match rest s pos (pos :: marks)
  | GroupClose :: rest => re_match rest s pos (pos :: marks)
  | DotStar :: rest =>
      (fix star (s : string) (pos : nat) {struct s} : option (list nat) :=
         match s with
         | EmptyString => re_match rest s pos marks
         | String c s' =>
             if Ascii.eqb c PyStr.LF then re_match rest s pos marks
             else match star s' (S pos) with
                  | Some r => Some r
                  | None => re_match rest s pos marks
                  end
         end) s pos
  end.

Definition slice (s : string) (from to : nat) : string :=
  substring from (to - from) s.

(** [pdb_re]: line 128. *)
Definition pdb_re : list re_item :=
  [ Lit (String PyStr.dquote "[RSDS] PdbSig: {");
    GroupOpen; DotStar; Lit "-"; DotStar; Lit "-"; DotStar; Lit "-";
    DotStar; Lit "-"; DotStar; GroupClose;
    Lit "}; Age: "; GroupOpen; DotStar; GroupClose;
    Lit "; Pdb: "; GroupOpen; DotStar; GroupClose;
    Lit (String PyStr.dquote "") ].

(** [pdb_cached_re]: line 129. *)
Definition pdb_cached_re : list re_item :=
  [ Lit "Found "; DotStar; Lit "file - placed it in ";
    GroupOpen; DotStar; GroupClose ].

(** [pdb_re.match(line)] and its [groups()]. *)
Definition pdb_re_match (line : string) : option (string * string * string) :=
  match re_match pdb_re line 0 [] with
  | Some [a1; b1; a2; b2; a3; b3] =>
      Some (slice line a1 b1, slice line a2 b2, slice line a3 b3)
  | _ => None
  end.

(** [pdb_cached_re.match(subline)] and its [groups()[0]]. *)
Definition pdb_cached_re_match (subline : string) : option string :=
  match re_match pdb_cached_re subline 0 [] with
  | Some [a1; b1] => Some (slice subline a1 b1)
  | _ => None
  end.

(** ** Trace scanner: lines 149-166 *)

(** The list of line 156. *)
Definition dll_names : list string :=
  [ "chrome.exe"; "chrome.dll"; "blink_web.dll"; "content.dll";
    "chrome_elf.dll"; "chrome_watcher.dll"; "libEGL.dll"; "libGLESv2.dll" ].

(** Lines 150-158: the name used for the [.symcache] file, [None] when the
    line names no known module. *)
Definition dll_match (line : string) : option string :=
  let dllMatch :=
    if (0 <? PyStr.count line "chrome_child.dll")%nat
    then Some "chrome.dll" else None in
  fold_left
    (fun dllMatch dllName =>
       if (0 <? PyStr.count line ("\" ++ dllName))%nat
       then Some dllName else dllMatch)
    dll_names dllMatch.

(** Line 166. *)
Definition symcache_file (dllMatch guid : string) (age : Z) : string :=
  "c:\symcache\" ++ dllMatch ++ "-" ++ guid ++ PyStr.hex_of_int age
    ++ "v2.symcache".

Record SymbolRecord : Type := mkSymbolRecord {
  rec_dll : string;    (* dllMatch *)
  rec_guid : string;   (* guid, hyphens removed *)
  rec_age : Z;         (* int(age) *)
  rec_path : string    (* the Pdb: field *)
}.

(** Exceptions.  The environment raises [env_exn]; the script itself
    raises [ValueError] (from [int]) and [SystemExit] (from [sys.exit]). *)
Inductive env_exn : Type :=
| KeyboardInterrupt
| OSError
| CalledProcessError.

Inductive exn : Type :=
| Env (e : env_exn)
| ValueError
| SystemExit (code : Z).

(** Lines 150-164 for one line: [inl None] when the line is skipped,
    [inl (Some r)] for a signature, [inr ValueError] when [int(age)]
    raises. *)
Definition parse_line (line : string) : option SymbolRecord + exn :=
  match dll_match line with
  | None => inl None
  | Some dllMatch =>
      match pdb_re_match line with
      | None => inl None
      | Some (guid, age, path) =>
          let guid := PyStr.replace guid "-" "" in
          match PyStr.int_of_str age with
          | None => inr ValueError
          | Some age => inl (Some (mkSymbolRecord dllMatch guid age path))
          end
      end
  end.

(** The scanner on its own: the signatures of a sequence of lines, or the
    exception of the first line that raises. *)
Fixpoint trace_scanner (lines : list string) : list SymbolRecord + exn :=
  match lines with
  | [] => inl []
  | line :: rest =>
      match parse_line line with
      | inr e => inr e
      | inl r =>
          match trace_scanner rest with
          | inr e => inr e
          | inl rs => inl (match r with Some x => x :: rs | None => rs end)
          end
      end
  end.

(** ** The operating system

    What [main] calls outside the interpreter.  A call that Python lets
    raise returns an [env_exn] in place of its result; [os.path.exists] and
    [shutil.rmtree(..., ignore_errors=True)] do not raise.  The [os.path]
    string functions are those of the platform ([ntpath]). *)

Class OS (W : Type) : Type := {
  os_path_exists : string -> W -> bool;
  os_remove : string -> W -> option env_exn * W;
  os_rename : string -> string -> W -> option env_exn * W;
  os_popen : string -> W -> (list string + env_exn) * W;
  subprocess_check_output : string -> W -> (string + env_exn) * W;
  tempfile_mkdtemp : W -> (string + env_exn) * W;
  shutil_copy2 : string -> string -> W -> option env_exn * W;
  shutil_rmtree : string -> W -> W;
  os_environ : string -> W -> option string;
  os_environ_set : string -> string -> W -> W;
  os_path_split : string -> string * string;
  os_path_join : string -> string -> string;
  os_path_normpath : string -> string;
  os_path_basename : string -> string
}.

(** The five command lines the script builds (lines 143, 175, 197, 207 and
    256), kept apart by call site; [command_line] is the text handed to the
    shell. *)
Inductive command : Type :=
| XperfSymcache (tracename : string)
| RetrieveSymbols (retrieve_path guid : string) (age : Z) (filepart : string)
| PdbCopy (pdbcopy_path pdb_cache_path dest_path : string)
| UnFastlink (un_fastlink_tool pdb_cache_path : string)
| XperfBuild (tracename : string).

Definition command_line (c : command) : string :=
  match c with
  | XperfSymcache tracename =>
      "xperf -i " ++ PyStr.quoted tracename ++ " -tle -tti -a symcache -dbgid"
  | RetrieveSymbols retrieve_path guid age filepart =>
      retrieve_path ++ " " ++ guid ++ " " ++ PyStr.str_of_int age ++ " "
        ++ filepart
  | PdbCopy pdbcopy_path pdb_cache_path dest_path =>
      pdbcopy_path ++ " " ++ PyStr.quoted pdb_cache_path ++ " "
        ++ PyStr.quoted dest_path ++ " -p"
  | UnFastlink un_fastlink_tool pdb_cache_path =>
      un_fastlink_tool ++ " " ++ PyStr.quoted pdb_cache_path
  | XperfBuild tracename =>
      "xperf -i " ++ PyStr.quoted tracename
        ++ " -symbols -tle -tti -a symcache -build"
  end.

(** What a run does, in order: the lines it prints and the calls it makes,
    each call with the exception it raised, if any. *)
Inductive event : Type :=
| Print (s : string)
| PrintNoNewline (s : string)
| CheckOutput (c : command) (err : option env_exn)
| Popen (c : command) (err : option env_exn)
| Mkdtemp (r : string + env_exn)
| Copy2 (src dst : string) (err : option env_exn)
| Remove (p : string) (err : option env_exn)
| Rename (src dst : string) (err : option env_exn)
| Rmtree (d : string)
| SetEnviron (k v : string).

(** The local variables of [main] that are assigned after line 116. *)
Record vars : Type := mkVars {
  tempdirs : list string;
  symcache_files : list string;
  local_symbol_files : list string;
  found_uncached : bool;
  symbol_path : string;
  renames : list (string * string);
  rename_errors : bool;
  error : bool
}.

Definition set_tempdirs (x : list string) (v : vars) : vars :=
  mkVars x (symcache_files v) (local_symbol_files v) (found_uncached v)
         (symbol_path v) (renames v) (rename_errors v) (error v).
Definition set_symcache_files (x : list string) (v : vars) : vars :=
  mkVars (tempdirs v) x (local_symbol_files v) (found_uncached v)
         (symbol_path v) (renames v) (rename_errors v) (error v).
Definition set_local_symbol_files (x : list string) (v : vars) : vars :=
  mkVars (tempdirs v) (symcache_files v) x (found_uncached v)
         (symbol_path v) (renames v) (rename_errors v) (error v).
Definition set_found_uncached (x : bool) (v : vars) : vars :=
  mkVars (tempdirs v) (symcache_files v) (local_symbol_files v) x
         (symbol_path v) (renames v) (rename_errors v) (error v).
Definition set_symbol_path (x : string) (v : vars) : vars :=
  mkVars (tempdirs v) (symcache_files v) (local_symbol_files v)
         (found_uncached v) x (renames v) (rename_errors v) (error v).
Definition set_renames (x : list (string * string)) (v : vars) : vars :=
  mkVars (tempdirs v) (symcache_files v) (local_symbol_files v)
         (found_uncached v) (symbol_path v) x (rename_errors v) (error v).
Definition set_rename_errors (x : bool) (v : vars) : vars :=
  mkVars (tempdirs v) (symcache_files v) (local_symbol_files v)
         (found_uncached v) (symbol_path v) (renames v) x (error v).
Definition set_error (x : bool) (v : vars) : vars :=
  mkVars (tempdirs v) (symcache_files v) (local_symbol_files v)
         (found_uncached v) (symbol_path v) (renames v) (rename_errors v) x.

(** What the interpreter hands to the script: [sys.argv] (never empty, so
    [argv0] and the rest), [sys.version_info] and [sys.version]. *)
Record sys : Type := mkSys {
  argv0 : string;
  args : list string;
  version_major : Z;
  version_minor : Z;
  version : string
}.

(** The values lines 81-116 settle before the scan. *)
Record config : Type := mkConfig {
  retrieve_path : string;
  pdbcopy_path : string;
  un_fastlink_tool : option string;
  tracename : string
}.

(** Line 63. *)
Definition strip_and_translate : bool := true.

(** [sys.exc_info()[0]] as ["%s"] prints it. *)
Definition exc_type (e : exn) : string :=
  match e with
  | Env KeyboardInterrupt => "<type 'exceptions.KeyboardInterrupt'>"
  | Env OSError => "<type 'exceptions.OSError'>"
  | Env CalledProcessError => "<class 'subprocess.CalledProcessError'>"
  | ValueError => "<type 'exceptions.ValueError'>"
  | SystemExit _ => "<type 'exceptions.SystemExit'>"
  end.

(** ** The monad of [main] *)

Record outcome (W A : Type) : Type := mkOutcome {
  result : A + exn;
  locals : vars;
  world : W;
  trace : list event
}.
Arguments mkOutcome {W A} _ _ _ _.
Arguments result {W A} _.
Arguments locals {W A} _.
Arguments world {W A} _.
Arguments trace {W A} _.

Definition M (W A : Type) : Type := vars -> W -> outcome W A.

Definition ret {W A} (a : A) : M W A :=
  fun v w => mkOutcome (inl a) v w [].

Definition raise {W A} (e : exn) : M W A :=
  fun v w => mkOutcome (inr e) v w [].

Definition bind {W A B} (m : M W A) (f : A -> M W B) : M W B :=
  fun v w =>
    match m v w with
    | mkOutcome (inl a) v1 w1 t1 =>
        match f a v1 w1 with
        | mkOutcome r v2 w2 t2 => mkOutcome r v2 w2 (t1 ++ t2)%list
        end
    | mkOutcome (inr e) v1 w1 t1 => mkOutcome (inr e) v1 w1 t1
    end.

(** [try: body / except <catches>: handler]. What [body] did to the
    variables and the world before it raised stays done. *)
Definition try_except {W A} (body : M W A) (catches : exn -> bool)
           (handler : exn -> M W A) : M W A :=
  fun v w =>
    match body v w with
    | mkOutcome (inl a) v1 w1 t1 => mkOutcome (inl a) v1 w1 t1
    | mkOutcome (inr e) v1 w1 t1 =>
        if catches e then
          match handler e v1 w1 with
          | mkOutcome r v2 w2 t2 => mkOutcome r v2 w2 (t1 ++ t2)%list
          end
        else mkOutcome (inr e) v1 w1 t1
    end.

Declare Scope py_scope.
Delimit Scope py_scope with py.
Notation "x <- m ;; k" := (bind m (fun x => k))
  (at level 61, m at next level, right associativity) : py_scope.
Notation "m ;; k" := (bind m (fun _ => k))
  (at level 61, right associativity) : py_scope.
#[local] Open Scope py_scope.

Definition get {W} : M W vars := fun v w => mkOutcome (inl v) v w [].
Definition modify {W} (f : vars -> vars) : M W unit :=
  fun v w => mkOutcome (inl tt) (f v) w [].
Definition when {W} (b : bool) (m : M W unit) : M W unit :=
  if b then m else ret tt.

Fixpoint for_each {W X} (xs : list X) (body : X -> M W unit) : M W unit :=
  match xs with
  | [] => ret tt
  | x :: rest => body x ;; for_each rest body
  end.

Definition bare_except (e : exn) : bool := true.
Definition except_KeyboardInterrupt (e : exn) : bool :=
  match e with Env KeyboardInterrupt => true | _ => false end.

Definition of_err (r : option env_exn) : unit + exn :=
  match r with None => inl tt | Some e => inr (Env e) end.
Definition of_res {A} (r : A + env_exn) : A + exn :=
  match r with inl a => inl a | inr e => inr (Env e) end.
Definition err_of {A} (r : A + env_exn) : option env_exn :=
  match r with inl _ => None | inr e => Some e end.

Section Calls.
Context {W : Type} {os : OS W}.

Definition print (s : string) : M W unit :=
  fun v w => mkOutcome (inl tt) v w [Print s].
Definition print_no_newline (s : string) : M W unit :=
  fun v w => mkOutcome (inl tt) v w [PrintNoNewline s].
Definition sys_exit {A} (code : Z) : M W A := raise (SystemExit code).

Definition exists_ (p : string) : M W bool :=
  fun v w => mkOutcome (inl (os_path_exists p w)) v w [].
Definition environ_get (k : string) : M W (option string) :=
  fun v w => mkOutcome (inl (os_environ k w)) v w [].
Definition environ_set (k x : string) : M W unit :=
  fun v w => mkOutcome (inl tt) v (os_environ_set k x w) [SetEnviron k x].
Definition remove (p : string) : M W unit :=
  fun v w =>
    match os_remove p w with
    | (r, w1) => mkOutcome (of_err r) v w1 [Remove p r]
    end.
Definition rename (src dst : string) : M W unit :=
  fun v w =>
    match os_rename src dst w with
    | (r, w1) => mkOutcome (of_err r) v w1 [Rename src dst r]
    end.
Definition copy2 (src dst : string) : M W unit :=
  fun v w =>
    match shutil_copy2 src dst w with
    | (r, w1) => mkOutcome (of_err r) v w1 [Copy2 src dst r]
    end.
Definition rmtree (d : string) : M W unit :=
  fun v w => mkOutcome (inl tt) v (shutil_rmtree d w) [Rmtree d].
Definition mkdtemp : M W string :=
  fun v w =>
    match tempfile_mkdtemp w with
    | (r, w1) => mkOutcome (of_res r) v w1 [Mkdtemp r]
    end.
Definition check_output (c : command) : M W string :=
  fun v w =>
    match subprocess_check_output (command_line c) w with
    | (r, w1) => mkOutcome (of_res r) v w1 [CheckOutput c (err_of r)]
    end.
Definition popen (c : command) : M W (list string) :=
  fun v w =>
    match os_popen (command_line c) w with
    | (r, w1) => mkOutcome (of_res r) v w1 [Popen c (err_of r)]
    end.

End Calls.

(** ** [main] *)

Section Script.
Context {W : Type} {os : OS W}.

(** Lines 174-183: the path RetrieveSymbols reports, from its output. *)
Definition retrieved_path (sublines : list string) : option string :=
  fold_left
    (fun pdb_cache_path subline =>
       match pdb_cached_re_match (PyStr.strip subline) with
       | Some p =>
           Some (if PyStr.endswith_char p "."%char then PyStr.drop_last p
                 else p)
       | None => pdb_cache_path
       end)
    sublines None.

(** Python truth value of [pdb_cache_path]: [None] and the empty string
    are false. *)
Definition truthy (o : option string) : bool :=
  match o with Some s => PyStr.nonempty s | None => false end.

(** The string a path variable holds, [""] for [None]. *)
Definition path_of (o : option string) : string :=
  match o with Some s => s | None => "" end.

(** Lines 203-205, 211-213 and 215-217. *)
Definition run_copy (copy_command : command) : M W unit :=
  output <- check_output copy_command ;;
  when (PyStr.nonempty output) (print_no_newline ("  " ++ output)).

(** Lines 199-217. *)
Definition copy_step (cfg : config) (pdb_cache_path : string)
           (copy_command : command) : M W unit :=
  match un_fastlink_tool cfg with
  | Some tool =>
      try_except (run_copy copy_command) bare_except
        (fun _ =>
           let convert_command := UnFastlink tool pdb_cache_path in
           print "Attempting to un-fastlink PDB so that pdbcopy can strip it. This may be slow." ;;
           print ("  > " ++ command_line convert_command) ;;
           _ <- check_output convert_command ;;
           run_copy copy_command)
  | None => run_copy copy_command
  end.

(** Lines 191-217: copy the PDB into a fresh directory; the result is
    [dest_path]. *)
Definition copy_pdb (cfg : config) (pdb_cache_path : string) : M W string :=
  tempdir <- mkdtemp ;;
  modify (fun v => set_tempdirs (tempdirs v ++ [tempdir]) v) ;;
  let dest_path := os_path_join tempdir (os_path_basename pdb_cache_path) in
  print ("  Copying PDB to " ++ dest_path) ;;
  let copy_command := PdbCopy (pdbcopy_path cfg) pdb_cache_path dest_path in
  print ("  > " ++ command_line copy_command) ;;
  copy_step cfg pdb_cache_path copy_command ;;
  ret dest_path.

(** The message of line 219. *)
Definition aborting (dest_path : string) : string :=
  "Aborting symbol generation because stripped PDB '" ++ dest_path
    ++ "' does not exist. WPA symbol loading may be slow.".

(** Lines 191-220. *)
Definition strip_pdb (cfg : config) (pdb_cache_path : string) : M W unit :=
  dest_path <- copy_pdb cfg pdb_cache_path ;;
  found <- exists_ dest_path ;;
  if negb found then
    print (aborting dest_path) ;;
    sys_exit 0
  else ret tt.

(** Lines 165-224: what the loop does with one signature. *)
Definition process_record (cfg : config) (r : SymbolRecord) : M W unit :=
  let filepart := snd (os_path_split (rec_path r)) in
  let symcache_file := symcache_file (rec_dll r) (rec_guid r) (rec_age r) in
  cached <- exists_ symcache_file ;;
  if cached then ret tt (* continue *)
  else
    modify (set_found_uncached true) ;;
    print ("Found uncached reference to " ++ filepart ++ ": " ++ rec_guid r
             ++ " - " ++ PyStr.str_of_int (rec_age r)) ;;
    modify (fun v => set_symcache_files (symcache_files v ++ [symcache_file]) v) ;;
    let retrieve_command :=
      RetrieveSymbols (retrieve_path cfg) (rec_guid r) (rec_age r) filepart in
    print ("  > " ++ command_line retrieve_command) ;;
    sublines <- popen retrieve_command ;;
    let pdb_cache_path := retrieved_path sublines in
    pdb_cache_path <-
      (if strip_and_translate && negb (truthy pdb_cache_path) then
         (* Look for locally built symbols *)
         is_local <- exists_ (rec_path r) ;;
         if is_local then
           modify (fun v => set_local_symbol_files
                              (local_symbol_files v ++ [rec_path r]) v) ;;
           ret (Some (rec_path r))
         else ret pdb_cache_path
       else ret pdb_cache_path) ;;
    if truthy pdb_cache_path then
      if strip_and_translate then strip_pdb cfg (path_of pdb_cache_path)
      else print "   Symbols retrieved."
    else print "  Failed to retrieve symbols.".

(** Lines 149-224: the body of the loop over the lines of xperf. *)
Definition scan_line (cfg : config) (line : string) : M W unit :=
  match parse_line line with
  | inr e => raise e
  | inl None => ret tt
  | inl (Some r) => process_record cfg r
  end.

(** Lines 236-250: hide one locally built PDB. *)
Definition hide (local_pdb : string) : M W unit :=
  let temp_name := local_pdb ++ "x" in
  print ("Renaming " ++ local_pdb ++ " to " ++ temp_name
           ++ " to stop unstripped PDBs from being used.") ;;
  renamed <-
    try_except
      (occupied <- exists_ temp_name ;;
       when occupied (remove temp_name) ;;
       rename local_pdb temp_name ;;
       ret true)
      bare_except
      (fun e =>
         print ("Hit exception while renaming " ++ local_pdb ++ " to "
                  ++ temp_name ++ ". Continuing." ++ String PyStr.LF ""
                  ++ exc_type e) ;;
         modify (set_rename_errors true) ;;
         ret false) ;;
  (* else: *)
  when renamed (modify (fun v => set_renames (renames v ++ [(local_pdb, temp_name)]) v)).

(** The warning of line 254. *)
Definition skipping : string :=
  "Skipping symbol generation due to PDB rename errors. WPA symbol loading may be slow.".

(** Lines 233-264: hide the local PDBs and build the symcache files. *)
Definition hide_and_build (cfg : config) : M W unit :=
  try_except
    (modify (set_rename_errors false) ;;
     v <- get ;;
     for_each (local_symbol_files v) hide ;;
     v <- get ;;
     if rename_errors v then
       print skipping
     else
       let gen_command := XperfBuild (tracename cfg) in
       print ("> " ++ command_line gen_command) ;;
       _ <- popen gen_command ;;
       ret tt)
    except_KeyboardInterrupt
    (fun _ =>
       v <- get ;;
       when (negb (Nat.eqb (List.length (renames v)) 0))
            (print "Ctrl+C detected. Renaming PDBs back.") ;;
       modify (set_error true)).

(** Lines 266-271: rename one hidden PDB back. *)
Definition renaming_back_failed (temp_name : string) (e : exn) : string :=
  "Hit exception while renaming " ++ temp_name ++ " back. Continuing."
    ++ String PyStr.LF "" ++ exc_type e.

Definition rename_back (rename_names : string * string) : M W unit :=
  try_except (rename (snd rename_names) (fst rename_names)) bare_except
    (fun e => print (renaming_back_failed (snd rename_names) e)).

(** Lines 265-271: rename the hidden PDBs back. *)
Definition restore : M W unit :=
  v <- get ;;
  for_each (renames v) rename_back.

(** Lines 273-277: check one symcache file. *)
Definition check_generated (symcache_file : string) : M W unit :=
  generated <- exists_ symcache_file ;;
  if generated then print (symcache_file ++ " generated.")
  else
    print ("Error: " ++ symcache_file ++ " not generated.") ;;
    modify (set_error true).

(** Lines 272-277: check that every symcache file was generated. *)
Definition verify : M W unit :=
  v <- get ;;
  for_each (symcache_files v) check_generated.

(** The line printed at line 282. *)
Definition retry_hint (symbol_path : string) : string :=
  "set _NT_SYMBOL_PATH=" ++ symbol_path.

(** Lines 278-285: delete the stripped PDBs, or keep them. *)
Definition cleanup : M W unit :=
  v <- get ;;
  if error v then
    print "Retaining PDBs to allow rerunning xperf command-line." ;;
    print "If re-running the command be sure to go:" ;;
    print (retry_hint (symbol_path v))
  else for_each (tempdirs v) rmtree.

(** Lines 227-271: up to the point where the PDBs are renamed back. *)
Definition hide_build_restore (cfg : config) : M W unit :=
  v <- get ;;
  let symbol_path := PyStr.join ";" (tempdirs v) in
  modify (set_symbol_path symbol_path) ;;
  print ("Stripped PDBs are in " ++ symbol_path
           ++ ". Converting to symcache files now.") ;;
  environ_set "_NT_SYMBOL_PATH" symbol_path ;;
  modify (set_renames []) ;;
  modify (set_error false) ;;
  hide_and_build cfg ;;
  restore.

(** Lines 227-285. *)
Definition convert (cfg : config) : M W unit :=
  hide_build_restore cfg ;;
  verify ;;
  cleanup.

(** Lines 226-290. *)
Definition finish (cfg : config) : M W unit :=
  v <- get ;;
  if negb (Nat.eqb (List.length (tempdirs v)) 0) then convert cfg
  else if strip_and_translate then
    if found_uncached v then print "No PDBs copied, nothing to do."
    else print "No uncached PDBS found, nothing to do."
  else ret tt.

(** Lines 116-224: the scan of the trace. *)
Definition scan (cfg : config) : M W unit :=
  modify (set_tempdirs []) ;;
  print "Pre-translating chrome symbols from stripped PDBs to avoid 10-15 minute translation times and to work around WPA symbol download bugs." ;;
  modify (set_symcache_files []) ;;
  modify (set_local_symbol_files []) ;;
  let command := XperfSymcache (tracename cfg) in
  print ("> " ++ command_line command) ;;
  modify (set_found_uncached false) ;;
  raw_command_output <- check_output command ;;
  let command_output := PyStr.splitlines raw_command_output in
  for_each command_output (scan_line cfg).

(** Lines 101-106. *)
Definition copy_third_party (script_dir : string) : M W unit :=
  for_each ["pdbcopy.exe"; "dbghelp.dll"; "symsrv.dll"]
    (fun third_party =>
       present <- exists_ third_party ;;
       if negb present then
         let source :=
           os_path_normpath
             (os_path_join (os_path_join script_dir "..\third_party")
                           third_party) in
         let dest := os_path_normpath (os_path_join script_dir third_party) in
         copy2 source dest
       else ret tt).

(** Lines 66-116: the checks before the scan. *)
Definition prepare (sy : sys) : M W config :=
  when (Nat.ltb (List.length (argv0 sy :: args sy)) 2)
       (print ("Usage: " ++ argv0 sy ++ " trace.etl") ;; sys_exit 0) ;;
  when ((version_major sy =? 2)%Z && (version_minor sy <? 7)%Z)
       (print "Your python version is too old - 2.7 or higher required." ;;
        print ("Python version is " ++ version sy) ;;
        sys_exit 0) ;;
  symbol_path <- environ_get "_NT_SYMBOL_PATH" ;;
  let symbol_path := path_of symbol_path in
  modify (set_symbol_path symbol_path) ;;
  when (Nat.eqb (PyStr.count symbol_path "chromium-browser-symsrv") 0)
       (print "Chromium symbol server is not in _NT_SYMBOL_PATH. No symbol stripping needed." ;;
        sys_exit 0) ;;
  let script_dir := fst (os_path_split (argv0 sy)) in
  let retrieve_path := os_path_join script_dir "RetrieveSymbols.exe" in
  let pdbcopy_path := os_path_join script_dir "pdbcopy.exe" in
  programfiles <- environ_get "programfiles(x86)" ;;
  pdbcopy_path <-
    match programfiles with
    | Some dir =>
        let pdbcopy_install :=
          os_path_join dir "Windows kits\10\debuggers\x86\pdbcopy.exe" in
        installed <- exists_ pdbcopy_install ;;
        ret (if installed then pdbcopy_install else pdbcopy_path)
    | None => ret pdbcopy_path
    end ;;
  let un_fastlink_tool :=
    "C:\Program Files (x86)\Microsoft Visual Studio 14.0\VC\bin\amd64\mspdbcmf.exe" in
  have_tool <- exists_ un_fastlink_tool ;;
  let un_fastlink_tool := if have_tool then Some un_fastlink_tool else None in
  copy_third_party script_dir ;;
  have_pdbcopy <- exists_ pdbcopy_path ;;
  when (negb have_pdbcopy)
       (print "pdbcopy.exe not found. No symbol stripping is possible." ;;
        sys_exit 0) ;;
  have_retrieve <- exists_ retrieve_path ;;
  when (negb have_retrieve)
       (print "RetrieveSymbols.exe not found. No symbol retrieval is possible." ;;
        sys_exit 0) ;;
  let tracename := hd "" (args sy) in
  ret (mkConfig retrieve_path pdbcopy_path un_fastlink_tool tracename).

Definition main (sy : sys) : M W unit :=
  cfg <- prepare sy ;;
  scan cfg ;;
  finish cfg.

End Script.

(** The exit status of the process: 0 when [main] returns, the argument of
    [sys.exit], and 1 when an exception reaches the top level. *)
Definition exit_status {A} (r : A + exn) : Z :=
  match r with
  | inl _ => 0
  | inr (SystemExit code) => code
  | inr _ => 1
  end.

(** ** A small file system to run the script on

    Files with their contents, the environment, and what the external tools
    answer.  [os.rename] is the Windows one: it fails when the target
    exists.  A path in [sim_locked] can be neither renamed nor removed. *)

Module Sim.

Record world : Type := mkWorld {
  sim_files : list (string * string);
  sim_environ : list (string * string);
  sim_locked : list string;
  sim_xperf : string;
  sim_retrieve : list string;
  sim_pdbcopy : option env_exn * list string;
  sim_build : option env_exn * list string;
  sim_temp : nat
}.

Definition with_files (fs : list (string * string)) (w : world) : world :=
  mkWorld fs (sim_environ w) (sim_locked w) (sim_xperf w) (sim_retrieve w)
          (sim_pdbcopy w) (sim_build w) (sim_temp w).

Fixpoint lookup (k : string) (kvs : list (string * string)) : option string :=
  match kvs with
  | [] => None
  | (k', x) :: rest => if String.eqb k k' then Some x else lookup k rest
  end.

Definition delete (k : string) (kvs : list (string * string))
  : list (string * string) :=
  filter (fun kv => negb (String.eqb k (fst kv))) kvs.

Definition has (k : string) (kvs : list (string * string)) : bool :=
  match lookup k kvs with Some _ => true | None => false end.

Definition locked (p : string) (w : world) : bool :=
  existsb (String.eqb p) (sim_locked w).

Definition create (ps : list string) (w : world) : world :=
  with_files (map (fun p => (p, "made by a tool")) ps ++ sim_files w)%list w.

Definition sim_remove (p : string) (w : world) : option env_exn * world :=
  if has p (sim_files w) && negb (locked p w)
  then (None, with_files (delete p (sim_files w)) w)
  else (Some OSError, w).

Definition sim_rename (src dst : string) (w : world)
  : option env_exn * world :=
  match lookup src (sim_files w) with
  | Some content =>
      if has dst (sim_files w) || locked src w then (Some OSError, w)
      else (None, with_files ((dst, content) :: delete src (sim_files w)) w)
  | None => (Some OSError, w)
  end.

Definition sim_popen (cmd : string) (w : world)
  : (list string + env_exn) * world :=
  if prefix "xperf " cmd then
    (match fst (sim_build w) with Some e => inr e | None => inl [] end,
     create (snd (sim_build w)) w)
  else (inl (sim_retrieve w), w).

Definition sim_check_output (cmd : string) (w : world)
  : (string + env_exn) * world :=
  if prefix "xperf " cmd then (inl (sim_xperf w), w)
  else
    (match fst (sim_pdbcopy w) with Some e => inr e | None => inl "" end,
     create (snd (sim_pdbcopy w)) w).

Definition sim_mkdtemp (w : world) : (string + env_exn) * world :=
  (inl ("T" ++ PyStr.str_of_int (Z.of_nat (sim_temp w))),
   mkWorld (sim_files w) (sim_environ w) (sim_locked w) (sim_xperf w)
           (sim_retrieve w) (sim_pdbcopy w) (sim_build w) (S (sim_temp w))).

Definition sim_copy2 (src dst : string) (w : world) : option env_exn * world :=
  match lookup src (sim_files w) with
  | Some content => (None, with_files ((dst, content) :: delete dst (sim_files w)) w)
  | None => (Some OSError, w)
  end.

Definition sim_rmtree (d : string) (w : world) : world :=
  with_files
    (filter (fun kv => negb (prefix (d ++ "\") (fst kv))) (sim_files w)) w.

Definition sim_environ_set (k x : string) (w : world) : world :=
  mkWorld (sim_files w) ((k, x) :: delete k (sim_environ w)) (sim_locked w)
          (sim_xperf w) (sim_retrieve w) (sim_pdbcopy w) (sim_build w)
          (sim_temp w).

(** [ntpath.split] on paths without a drive-only head: cut at the last
    backslash. *)
Fixpoint split_from (head tail s : string) : string * string :=
  match s with
  | EmptyString => (head, tail)
  | String c s' =>
      if Ascii.eqb c "\"%char
      then split_from (head ++ (if PyStr.nonempty head then "\" else "") ++ tail) "" s'
      else split_from head (tail ++ String c "") s'
  end.

Definition sim_split (p : string) : string * string := split_from "" "" p.
Definition sim_join (a b : string) : string :=
  if PyStr.nonempty a then a ++ "\" ++ b else b.

#[global] Instance sim_os : OS world := {|
  os_path_exists p w := has p (sim_files w);
  os_remove := sim_remove;
  os_rename := sim_rename;
  os_popen := sim_popen;
  subprocess_check_output := sim_check_output;
  tempfile_mkdtemp := sim_mkdtemp;
  shutil_copy2 := sim_copy2;
  shutil_rmtree := sim_rmtree;
  os_environ k w := lookup k (sim_environ w);
  os_environ_set := sim_environ_set;
  os_path_split := sim_split;
  os_path_join := sim_join;
  os_path_normpath p := p;
  os_path_basename p := snd (sim_split p)
|}.

End Sim.

Definition v0 : vars := mkVars [] [] [] false "" [] false false.

(** A line of xperf for a locally built chrome.dll. *)
Definition local_line : string :=
  PyStr.quoted
    "[RSDS] PdbSig: {0e7712be-af06-4421-884b-496f833c8ec1}; Age: 33; Pdb: D:\out\chrome.dll.pdb".

Definition local_cache : string :=
  "c:\symcache\chrome.dll-0e7712beaf064421884b496f833c8ec121v2.symcache".

Definition sys0 : sys :=
  mkSys "C:\etw\StripChromeSymbols.py" ["trace.etl"] 2 7 "2.7.18".

Definition tools : list (string * string) :=
  [ ("pdbcopy.exe", "exe"); ("dbghelp.dll", "dll"); ("symsrv.dll", "dll");
    ("C:\etw\pdbcopy.exe", "exe"); ("C:\etw\RetrieveSymbols.exe", "exe") ].

Definition environ0 : list (string * string) :=
  [ ("_NT_SYMBOL_PATH", "SRV*c:\symbols*https://chromium-browser-symsrv.commondatastorage.googleapis.com") ].

(** The local PDB exists, RetrieveSymbols finds nothing, pdbcopy and the
    build work. *)
Definition world_ok : Sim.world :=
  Sim.mkWorld (("D:\out\chrome.dll.pdb", "private symbols") :: tools)
              environ0 [] local_line [] (None, ["T0\chrome.dll.pdb"])
              (None, [local_cache]) 0.

(** A line that names chrome_child.dll and, as a directory, chrome.exe. *)
Definition child_under_exe_line : string :=
  PyStr.quoted
    "[RSDS] PdbSig: {0e7712be-af06-4421-884b-496f833c8ec1}; Age: 1; Pdb: D:\chrome.exe\chrome_child.dll.pdb".

(** A line with a signature whose age is not a decimal number. *)
Definition bad_age_line : string :=
  PyStr.quoted
    "[RSDS] PdbSig: {0e7712be-af06-4421-884b-496f833c8ec1}; Age: 1f; Pdb: D:\out\chrome.dll.pdb".

Definition local_pdb0 : string := "D:\out\chrome.dll.pdb".

Definition cfg0 : config :=
  mkConfig "C:\etw\RetrieveSymbols.exe" "C:\etw\pdbcopy.exe" None "trace.etl".

Definition with_build (b : option env_exn * list string) (w : Sim.world)
  : Sim.world :=
  Sim.mkWorld (Sim.sim_files w) (Sim.sim_environ w) (Sim.sim_locked w)
              (Sim.sim_xperf w) (Sim.sim_retrieve w) (Sim.sim_pdbcopy w) b
              (Sim.sim_temp w).

Definition with_locked (ps : list string) (w : Sim.world) : Sim.world :=
  Sim.mkWorld (Sim.sim_files w) (Sim.sim_environ w) ps
              (Sim.sim_xperf w) (Sim.sim_retrieve w) (Sim.sim_pdbcopy w)
              (Sim.sim_build w) (Sim.sim_temp w).

Definition with_pdbcopy (c : option env_exn * list string) (w : Sim.world)
  : Sim.world :=
  Sim.mkWorld (Sim.sim_files w) (Sim.sim_environ w) (Sim.sim_locked w)
              (Sim.sim_xperf w) (Sim.sim_retrieve w) c (Sim.sim_build w)
              (Sim.sim_temp w).

Definition with_environ (env : list (string * string)) (w : Sim.world)
  : Sim.world :=
  Sim.mkWorld (Sim.sim_files w) env (Sim.sim_locked w)
              (Sim.sim_xperf w) (Sim.sim_retrieve w) (Sim.sim_pdbcopy w)
              (Sim.sim_build w) (Sim.sim_temp w).

(** Ctrl+C arrives when xperf has already written the symcache file. *)
Definition world_interrupted : Sim.world :=
  with_build (Some KeyboardInterrupt, [local_cache]) world_ok.

(** The local PDB is in use and cannot be renamed. *)
Definition world_locked : Sim.world := with_locked [local_pdb0] world_ok.

(** pdbcopy runs and writes nothing. *)
Definition world_no_copy : Sim.world := with_pdbcopy (None, []) world_ok.

(** The symcache file is already there. *)
Definition world_cached : Sim.world :=
  Sim.with_files ((local_cache, "symcache") :: Sim.sim_files world_ok) world_ok.

(** An old file sits at the temporary path. *)
Definition world_stale_temp : Sim.world :=
  Sim.with_files ((local_pdb0 ++ "x", "stale") :: Sim.sim_files world_ok)
                 world_ok.

(** _NT_SYMBOL_PATH without the symbol server. *)
Definition world_no_marker : Sim.world :=
  with_environ [("_NT_SYMBOL_PATH", "SRV*c:\symbols")] world_ok.

(** xperf prints a signature whose age is not a decimal number. *)
Definition world_bad_age : Sim.world :=
  Sim.mkWorld (Sim.sim_files world_ok) (Sim.sim_environ world_ok) []
              bad_age_line [] (None, []) (None, []) 0.

(** The variables and the world at line 226, after a scan of [world_ok]
    with an interrupted build ahead. *)
Definition v_scanned : vars :=
  mkVars ["T0"] [local_cache] [local_pdb0] true "" [] false false.

Definition world_scanned : Sim.world :=
  Sim.create ["T0\chrome.dll.pdb"] world_interrupted.

(** ** Reading a trace *)

(** The local PDBs that were hidden: the successful renames of [p] to
    [p ++ "x"]. *)
Definition hidden_of (ev : event) : list (string * string) :=
  match ev with
  | Rename src dst None =>
      if String.eqb dst (src ++ "x") then [(src, dst)] else []
  | _ => []
  end.
Definition hidden_files (tr : list event) : list (string * string) :=
  flat_map hidden_of tr.

(** The attempts to rename [p ++ "x"] back to [p], whatever came of them,
    as pairs (original path, temporary path). *)
Definition restore_of (ev : event) : list (string * string) :=
  match ev with
  | Rename src dst _ =>
      if String.eqb src (dst ++ "x") then [(dst, src)] else []
  | _ => []
  end.
Definition restore_attempts (tr : list event) : list (string * string) :=
  flat_map restore_of tr.

(** The runs of the cache-build tool. *)
Definition build_of (ev : event) : list (string * option env_exn) :=
  match ev with
  | Popen (XperfBuild t) r => [(t, r)]
  | _ => []
  end.
Definition builds (tr : list event) : list (string * option env_exn) :=
  flat_map build_of tr.

(** The directories that were deleted. *)
Definition rmtree_of (ev : event) : list string :=
  match ev with Rmtree d => [d] | _ => [] end.
Definition rmtrees (tr : list event) : list string := flat_map rmtree_of tr.

(** A failure while hiding a PDB: [os.remove] raised, or the rename to
    [p ++ "x"] did. *)
Definition hide_failure (ev : event) : bool :=
  match ev with
  | Remove _ (Some _) => true
  | Rename src dst (Some _) => String.eqb dst (src ++ "x")
  | _ => false
  end.
Definition hide_failed (tr : list event) : bool := existsb hide_failure tr.

(** Ctrl+C while the cache-build tool ran. *)
Definition interrupt (ev : event) : bool :=
  match ev with
  | Popen (XperfBuild _) (Some KeyboardInterrupt) => true
  | _ => false
  end.
Definition interrupted (tr : list event) : bool := existsb interrupt tr.

(** The calls of a trace, without what was printed. *)
Definition is_call (ev : event) : bool :=
  match ev with Print _ | PrintNoNewline _ => false | _ => true end.
Definition calls (tr : list event) : list event := filter is_call tr.

(** What can happen before line 226: printing, running xperf,
    RetrieveSymbols, pdbcopy and mspdbcmf, creating a directory, copying
    the helper files.  No rename, no removal, no build. *)
Definition scan_event (ev : event) : bool :=
  match ev with
  | Print _ | PrintNoNewline _ | CheckOutput _ _ | Mkdtemp _ | Copy2 _ _ _ =>
      true
  | Popen (RetrieveSymbols _ _ _ _) _ => true
  | _ => false
  end.

(** ** The vocabulary of the statements *)

(** What hiding does to the variables, read off the trace: the successful
    renames are appended to [renames], and [rename_errors] is set once a
    call has failed. *)
Definition guard_update (v : vars) (tr : list event) : vars :=
  set_rename_errors (rename_errors v || hide_failed tr)
    (set_renames (renames v ++ hidden_files tr) v).

(** A pair (original path, temporary path) as [hide] records it. *)
Definition marker_suffixed (r : string * string) : Prop :=
  snd r = fst r ++ "x".

(** Exceptions the environment raised. *)
Definition from_env (e : exn) : Prop := exists x, e = Env x.

(** Exceptions other than [sys.exit] with a status that is not 0. *)
Definition exit_zero (e : exn) : Prop :=
  match e with SystemExit code => code = 0%Z | _ => True end.

(** The GUID with its hyphens removed. *)
Fixpoint without_hyphens (s : string) : string :=
  match s with
  | EmptyString => EmptyString
  | String c s' =>
      if Ascii.eqb c "-" then without_hyphens s'
      else String c (without_hyphens s')
  end.

(** The value of a lower-case hexadecimal digit: its place among the
    sixteen digits. *)
Fixpoint place_in (digits : string) (c : ascii) (place : Z) : option Z :=
  match digits with
  | EmptyString => None
  | String d rest =>
      if Ascii.eqb c d then Some place else place_in rest c (place + 1)
  end.

Definition hex_digit_value (c : ascii) : option Z :=
  place_in "0123456789abcdef" c 0.

(** A string of lower-case hexadecimal digits only. *)
Fixpoint lower_hex (s : string) : bool :=
  match s with
  | EmptyString => true
  | String c s' =>
      match hex_digit_value c with
      | Some _ => lower_hex s'
      | None => false
      end
  end.

(** The number a string of lower-case hexadecimal digits denotes, most
    significant digit first. *)
Fixpoint hex_value_from (acc : Z) (s : string) : option Z :=
  match s with
  | EmptyString => Some acc
  | String c s' =>
      match hex_digit_value c with
      | Some d => hex_value_from (16 * acc + d) s'
      | None => None
      end
  end.

Definition hex_value (s : string) : option Z :=
  match s with
  | EmptyString => None
  | String _ _ => hex_value_from 0 s
  end.

(** Line 157: the line names the module as a path component. *)
Definition named (line dllName : string) : bool :=
  (0 <? PyStr.count line ("\" ++ dllName))%nat.

(** Line 151. *)
Definition names_chrome_child (line : string) : bool :=
  (0 <? PyStr.count line "chrome_child.dll")%nat.

(** Lines 157-158: one turn of the loop over the names. *)
Definition pick (line : string) (dllMatch : option string) (dllName : string)
  : option string :=
  if named line dllName then Some dllName else dllMatch.

(** Every run of the cache-build tool returned or was interrupted by
    Ctrl+C. *)
Definition build_returned_or_interrupted (tr : list event) : Prop :=
  forall t e, In (t, Some e) (builds tr) -> e = KeyboardInterrupt.

Section Vocabulary.
Context {W : Type} {os : OS W}.

(** [sat P E m]: whatever the variables and the world, a run of [m] only
    produces events that satisfy [P], and an exception that leaves [m]
    satisfies [E]. *)
Definition sat {A} (P : event -> bool) (E : exn -> Prop) (m : M W A) : Prop :=
  forall v w,
    Forall (fun ev => P ev = true) (trace (m v w))
    /\ forall e, result (m v w) = inr e -> E e.

(** Every file of the list exists. *)
Definition all_exist (files : list string) (w : W) : bool :=
  forallb (fun f => os_path_exists f w) files.

(** C8 as the specification states it: once lines 227-271 have completed,
    the directories are deleted if and only if every expected symcache file
    exists. *)
Definition deleted_iff_verified (cfg : config) (v : vars) (w : W) : Prop :=
  let guarded := hide_build_restore cfg v w in
  let o := convert cfg v w in
  result guarded = inl tt ->
  (rmtrees (trace o) = tempdirs v
   <-> all_exist (symcache_files v) (world guarded) = true).

End Vocabulary.

(** ** Facts about traces *)

(** Appending ["x"] twice never gives the string back. *)
Lemma append_length (a b : string) :
  String.length (a ++ b) = String.length a + String.length b.
Proof. induction a as [|c a IH]; cbn; [reflexivity | now rewrite IH]. Qed.

Lemma eqb_temp_twice (p : string) :
  String.eqb p ((p ++ "x") ++ "x") = false.
Proof.
  apply String.eqb_neq. intro H.
  apply (f_equal String.length) in H.
  rewrite !append_length in H. cbn in H. lia.
Qed.

Lemma eqb_temp_twice' (p : string) :
  String.eqb ((p ++ "x") ++ "x") p = false.
Proof. rewrite String.eqb_sym. apply eqb_temp_twice. Qed.

Arguments hidden_files : simpl never.
Arguments restore_attempts : simpl never.
Arguments builds : simpl never.
Arguments rmtrees : simpl never.
Arguments hide_failed : simpl never.
Arguments interrupted : simpl never.
Arguments calls : simpl never.

Lemma hidden_files_app (a b : list event) :
  hidden_files (a ++ b) = (hidden_files a ++ hidden_files b)%list.
Proof. apply flat_map_app. Qed.

Lemma restore_attempts_app (a b : list event) :
  restore_attempts (a ++ b) = (restore_attempts a ++ restore_attempts b)%list.
Proof. apply flat_map_app. Qed.

Lemma builds_app (a b : list event) :
  builds (a ++ b) = (builds a ++ builds b)%list.
Proof. apply flat_map_app. Qed.

Lemma rmtrees_app (a b : list event) :
  rmtrees (a ++ b) = (rmtrees a ++ rmtrees b)%list.
Proof. apply flat_map_app. Qed.

Lemma hide_failed_app (a b : list event) :
  hide_failed (a ++ b) = hide_failed a || hide_failed b.
Proof. apply existsb_app. Qed.

Lemma interrupted_app (a b : list event) :
  interrupted (a ++ b) = interrupted a || interrupted b.
Proof. apply existsb_app. Qed.

Lemma calls_app (a b : list event) :
  calls (a ++ b) = (calls a ++ calls b)%list.
Proof. apply filter_app. Qed.

Lemma hidden_files_cons (ev : event) (tr : list event) :
  hidden_files (ev :: tr) = (hidden_of ev ++ hidden_files tr)%list.
Proof. reflexivity. Qed.

Lemma restore_attempts_cons (ev : event) (tr : list event) :
  restore_attempts (ev :: tr) = (restore_of ev ++ restore_attempts tr)%list.
Proof. reflexivity. Qed.

Lemma builds_cons (ev : event) (tr : list event) :
  builds (ev :: tr) = (build_of ev ++ builds tr)%list.
Proof. reflexivity. Qed.

Lemma rmtrees_cons (ev : event) (tr : list event) :
  rmtrees (ev :: tr) = (rmtree_of ev ++ rmtrees tr)%list.
Proof. reflexivity. Qed.

Lemma hide_failed_cons (ev : event) (tr : list event) :
  hide_failed (ev :: tr) = hide_failure ev || hide_failed tr.
Proof. reflexivity. Qed.

Lemma interrupted_cons (ev : event) (tr : list event) :
  interrupted (ev :: tr) = interrupt ev || interrupted tr.
Proof. reflexivity. Qed.

Lemma calls_cons (ev : event) (tr : list event) :
  calls (ev :: tr) = if is_call ev then ev :: calls tr else calls tr.
Proof. reflexivity. Qed.

Lemma hidden_files_nil : hidden_files [] = [].
Proof. reflexivity. Qed.
Lemma restore_attempts_nil : restore_attempts [] = [].
Proof. reflexivity. Qed.
Lemma builds_nil : builds [] = [].
Proof. reflexivity. Qed.
Lemma rmtrees_nil : rmtrees [] = [].
Proof. reflexivity. Qed.
Lemma hide_failed_nil : hide_failed [] = false.
Proof. reflexivity. Qed.
Lemma interrupted_nil : interrupted [] = false.
Proof. reflexivity. Qed.
Lemma calls_nil : calls [] = [].
Proof. reflexivity. Qed.

Create Rewrite HintDb trace.
#[global] Hint Rewrite
  hidden_files_app restore_attempts_app builds_app rmtrees_app
  hide_failed_app interrupted_app calls_app
  hidden_files_cons restore_attempts_cons builds_cons rmtrees_cons
  hide_failed_cons interrupted_cons calls_cons
  hidden_files_nil restore_attempts_nil builds_nil rmtrees_nil
  hide_failed_nil interrupted_nil calls_nil
  app_nil_r orb_false_r orb_true_r : trace.

(** Normalise what the readers above say about a trace that is given by
    its events. *)
Ltac trace_norm :=
  repeat (progress
            (autorewrite with trace;
             cbn [hidden_of restore_of build_of rmtree_of hide_failure
                  interrupt is_call app orb];
             rewrite ?String.eqb_refl, ?eqb_temp_twice, ?eqb_temp_twice';
             cbn iota)).

Lemma scan_events_quiet (tr : list event) :
  Forall (fun ev => scan_event ev = true) tr ->
  hidden_files tr = [] /\ restore_attempts tr = [] /\ builds tr = []
  /\ rmtrees tr = [] /\ (forall src dst r, ~ In (Rename src dst r) tr)
  /\ (forall p r, ~ In (Remove p r) tr).
Proof.
  induction 1 as [|ev tr Hev _ IH].
  - repeat split; auto.
  - destruct IH as (H1 & H2 & H3 & H4 & H5 & H6).
    unfold hidden_files, restore_attempts, builds, rmtrees in *.
    cbn [flat_map]. rewrite H1, H2, H3, H4.
    assert (Hr : forall src dst r, ev <> Rename src dst r)
      by (intros src dst r ->; discriminate Hev).
    assert (Hd : forall q r, ev <> Remove q r)
      by (intros q r ->; discriminate Hev).
    repeat split.
    + destruct ev; try reflexivity; discriminate Hev.
    + destruct ev; try reflexivity; discriminate Hev.
    + destruct ev as [| | | c r | | | | | |]; try reflexivity.
      destruct c; try reflexivity; discriminate Hev.
    + destruct ev; try reflexivity; discriminate Hev.
    + intros src dst r [Heq | Hin]; [exact (Hr _ _ _ Heq) | exact (H5 _ _ _ Hin)].
    + intros q r [Heq | Hin]; [exact (Hd _ _ Heq) | exact (H6 _ _ Hin)].
Qed.

(** ** Reasoning about runs *)

Section Reasoning.
Context {W : Type} {os : OS W}.

Lemma bind_run {A B} (m : M W A) (f : A -> M W B) (v : vars) (w : W) :
  bind m f v w =
  match result (m v w) with
  | inl a =>
      let o' := f a (locals (m v w)) (world (m v w)) in
      mkOutcome (result o') (locals o') (world o')
                (trace (m v w) ++ trace o')%list
  | inr e => mkOutcome (inr e) (locals (m v w)) (world (m v w)) (trace (m v w))
  end.
Proof.
  unfold bind. destruct (m v w) as [[a|e] v1 w1 t1]; cbn; [|reflexivity].
  now destruct (f a v1 w1).
Qed.

Lemma try_except_run {A} (body : M W A) catches handler (v : vars) (w : W) :
  try_except body catches handler v w =
  match result (body v w) with
  | inl _ => body v w
  | inr e =>
      if catches e then
        let o' := handler e (locals (body v w)) (world (body v w)) in
        mkOutcome (result o') (locals o') (world o')
                  (trace (body v w) ++ trace o')%list
      else body v w
  end.
Proof.
  unfold try_except. destruct (body v w) as [[a|e] v1 w1 t1]; cbn;
    [reflexivity|].
  destruct (catches e); [|reflexivity]. now destruct (handler e v1 w1).
Qed.

Lemma for_each_cons {X} (x : X) (xs : list X) (body : X -> M W unit) :
  for_each (x :: xs) body = bind (body x) (fun _ => for_each xs body).
Proof. reflexivity. Qed.

Lemma sat_ret {A} P E (a : A) : sat P E (ret (W := W) a).
Proof. intros v w; cbn; split; [constructor | discriminate]. Qed.

Lemma sat_raise {A} P (E : exn -> Prop) (e : exn) :
  E e -> sat P E (@raise W A e).
Proof.
  intros He v w; cbn; split; [constructor | now intros ? [= <-]].
Qed.

Lemma sat_bind {A B} P E (m : M W A) (f : A -> M W B) :
  sat P E m -> (forall a, sat P E (f a)) -> sat P E (bind m f).
Proof.
  intros Hm Hf v w. rewrite bind_run.
  destruct (Hm v w) as [Ht He].
  destruct (result (m v w)) as [a|e] eqn:R; cbn.
  - destruct (Hf a (locals (m v w)) (world (m v w))) as [Ht' He'].
    split; [apply Forall_app; now split | exact He'].
  - split; [exact Ht | intros e' [= <-]; now apply He].
Qed.

Lemma sat_try_except {A} P (E E' : exn -> Prop) (body : M W A) catches handler :
  sat P E' body ->
  (forall e, E' e -> catches e = true -> sat P E (handler e)) ->
  (forall e, E' e -> catches e = false -> E e) ->
  sat P E (try_except body catches handler).
Proof.
  intros Hb Hh Hu v w. rewrite try_except_run.
  destruct (Hb v w) as [Ht He].
  destruct (result (body v w)) as [a|e] eqn:R.
  - split; [exact Ht | rewrite R; discriminate].
  - destruct (catches e) eqn:C.
    + destruct (Hh e (He e eq_refl) C (locals (body v w)) (world (body v w)))
        as [Ht' He'].
      cbn. split; [apply Forall_app; now split | exact He'].
    + split; [exact Ht | rewrite R; intros e' [= <-]].
      apply Hu; [now apply He | exact C].
Qed.

Lemma sat_for_each {X} P E (xs : list X) (body : X -> M W unit) :
  (forall x, sat P E (body x)) -> sat P E (for_each xs body).
Proof.
  intros Hb. induction xs as [|x xs IH].
  - apply sat_ret.
  - rewrite for_each_cons. apply sat_bind; [apply Hb | intros _; exact IH].
Qed.

Lemma sat_weaken {A} P (E E' : exn -> Prop) (m : M W A) :
  sat P E m -> (forall e, E e -> E' e) -> sat P E' m.
Proof.
  intros Hm HE v w. destruct (Hm v w) as [Ht He]. split; auto.
Qed.

End Reasoning.

Lemma from_env_exit_zero (e : exn) : from_env e -> exit_zero e.
Proof. now intros [x ->]. Qed.

#[local] Hint Unfold from_env exit_zero : core.

(** One primitive of the monad. *)
Ltac sat_prim :=
  let v := fresh "v" in
  let w := fresh "w" in
  let e := fresh "e" in
  let He := fresh "He" in
  intros v w;
  cbv beta delta
    [print print_no_newline exists_ environ_get environ_set remove rename
       copy2 rmtree mkdtemp check_output popen get modify sys_exit raise ret];
  repeat match goal with
         | |- context [match ?c with (_, _) => _ end] => destruct c
         end;
  cbn [trace result];
  split;
  [ repeat constructor
  | intros e He;
    repeat match type of He with
           | context [of_err ?r] => destruct r; cbn in He
           | context [of_res ?r] => destruct r; cbn in He
           end;
    try discriminate He;
    injection He as <-; cbn; eauto ].

(** A compound program: split at binds and branches, then the primitives. *)
Create HintDb sat.

Ltac sat_go :=
  repeat first
    [ solve [auto 1 with sat nocore]
    | match goal with
      | |- sat _ _ (ret _) => apply sat_ret
      | |- sat _ _ (bind _ _) => apply sat_bind; [| intro]
      | |- sat _ _ (for_each _ _) => apply sat_for_each; intro
      | |- sat _ _ (when ?b _) => destruct b; unfold when
      | |- sat _ _ (if ?b then _ else _) => destruct b
      | |- sat _ _ (match ?x with _ => _ end) => destruct x
      | |- sat _ _ (let _ := _ in _) => cbv zeta
      end ];
  try solve [sat_prim].

Section Phases.
Context {W : Type} {os : OS W}.

Lemma run_copy_sat (c : command) :
  sat scan_event from_env (run_copy (W := W) c).
Proof. unfold run_copy. sat_go. Qed.
Hint Resolve run_copy_sat : sat.

Lemma copy_step_sat cfg p c :
  sat scan_event from_env (copy_step (W := W) cfg p c).
Proof.
  unfold copy_step. destruct (un_fastlink_tool cfg).
  - eapply sat_try_except with (E' := from_env).
    + apply run_copy_sat.
    + intros e _ _. sat_go.
    + discriminate.
  - apply run_copy_sat.
Qed.
Hint Resolve copy_step_sat : sat.

Lemma copy_pdb_sat cfg p :
  sat scan_event from_env (copy_pdb (W := W) cfg p).
Proof. unfold copy_pdb. sat_go. Qed.

Lemma strip_pdb_sat cfg p :
  sat scan_event exit_zero (strip_pdb (W := W) cfg p).
Proof.
  unfold strip_pdb. apply sat_bind.
  - eapply sat_weaken; [apply copy_pdb_sat | apply from_env_exit_zero].
  - intro dest_path. sat_go.
Qed.
Hint Resolve strip_pdb_sat : sat.

Lemma process_record_sat cfg r :
  sat scan_event exit_zero (process_record (W := W) cfg r).
Proof. unfold process_record. sat_go. Qed.

Lemma scan_line_sat cfg line :
  sat scan_event exit_zero (scan_line (W := W) cfg line).
Proof.
  unfold scan_line. destruct (parse_line line) as [[r|]|e] eqn:P.
  - apply process_record_sat.
  - apply sat_ret.
  - apply sat_raise. unfold parse_line in P.
    destruct (dll_match line); [|discriminate].
    destruct (pdb_re_match line) as [[[g a] q]|]; [|discriminate].
    destruct (PyStr.int_of_str a); [discriminate|]. now injection P as <-.
Qed.
Hint Resolve scan_line_sat : sat.

Lemma scan_sat cfg : sat scan_event exit_zero (scan (W := W) cfg).
Proof. unfold scan. sat_go. Qed.

Lemma prepare_sat sy : sat scan_event exit_zero (prepare (W := W) sy).
Proof. unfold prepare, copy_third_party. sat_go. Qed.

End Phases.

(** ** The guard: hiding and restoring the local PDBs *)

Lemma guard_update_nil (v : vars) : guard_update v [] = v.
Proof.
  destruct v; unfold guard_update; cbn.
  now rewrite app_nil_r, orb_false_r.
Qed.

Lemma guard_update_app (v : vars) (t1 t2 : list event) :
  guard_update (guard_update v t1) t2 = guard_update v (t1 ++ t2).
Proof.
  destruct v; unfold guard_update; cbn.
  now rewrite hidden_files_app, hide_failed_app, app_assoc, orb_assoc.
Qed.

(** Run a program symbolically.  [run_begin] sets the property to prove
    aside; [run_cases] evaluates the program and splits on the answer of
    each call and on each test the evaluation is stuck at; [run_end] brings
    the property back for the outcome found. *)
Ltac run_begin :=
  let o := fresh "o" in
  intro o; pattern o;
  match goal with
  | |- ?F _ =>
      let Q := fresh "Q" in
      let HQ := fresh "HQ" in
      remember F as Q eqn:HQ; subst o
  end.

Ltac run_cases :=
  repeat (cbn -[append String.eqb];
          match goal with
          | |- context [match ?c with (_, _) => _ end] =>
              is_var c; destruct c
          | |- context [match ?c with (_, _) => _ end] =>
              let r := fresh "r" in
              let w := fresh "w" in
              destruct c as [r w]
          | |- context [of_err ?r] => destruct r
          | |- context [of_res ?r] => destruct r
          | |- context [match ?e with
                        | KeyboardInterrupt => _
                        | OSError => _
                        | CalledProcessError => _
                        end] => destruct e
          | |- context [if ?b then _ else _] => destruct b eqn:?
          end);
  cbn -[append String.eqb].

Ltac run_end :=
  match goal with
  | HQ : ?Q = _ |- ?Q _ => subst Q; cbn -[append String.eqb]; trace_norm
  end.

Section Guard.
Context {W : Type} {os : OS W}.

Lemma hide_run (local_pdb : string) (v : vars) (w : W) :
  let o := hide local_pdb v w in
  result o = inl tt
  /\ locals o = guard_update v (trace o)
  /\ restore_attempts (trace o) = []
  /\ builds (trace o) = []
  /\ rmtrees (trace o) = []
  /\ interrupted (trace o) = false.
Proof.
  run_begin. destruct v.
  cbv beta delta [hide try_except bind when exists_ remove rename print modify
    ret].
  run_cases; run_end; unfold guard_update; trace_norm; cbn -[append];
    trace_norm; repeat split; reflexivity.
Qed.

(** The loop of line 235. *)
Lemma hide_loop_run (files : list string) (v : vars) (w : W) :
  let o := for_each files hide v w in
  result o = inl tt
  /\ locals o = guard_update v (trace o)
  /\ restore_attempts (trace o) = []
  /\ builds (trace o) = []
  /\ rmtrees (trace o) = []
  /\ interrupted (trace o) = false.
Proof.
  revert v w. induction files as [|p files IH]; intros v w.
  - cbn. rewrite guard_update_nil. repeat split; reflexivity.
  - rewrite for_each_cons. cbv zeta. rewrite bind_run.
    destruct (hide_run p v w) as (R1 & L1 & A1 & B1 & D1 & I1).
    cbv zeta in *. rewrite R1.
    destruct (IH (locals (hide p v w)) (world (hide p v w)))
      as (R2 & L2 & A2 & B2 & D2 & I2).
    cbv zeta in *. cbn [result locals world trace].
    rewrite restore_attempts_app, builds_app, rmtrees_app, interrupted_app.
    rewrite R2, L2, A1, A2, B1, B2, D1, D2, I1, I2, L1, guard_update_app.
    repeat split; reflexivity.
Qed.

(** Lines 233-264. *)
Lemma hide_and_build_run (cfg : config) (v : vars) (w : W) :
  let o := hide_and_build cfg v w in
  locals o = set_error (error v || interrupted (trace o))
               (guard_update (set_rename_errors false v) (trace o))
  /\ restore_attempts (trace o) = []
  /\ rmtrees (trace o) = []
  /\ (if hide_failed (trace o)
      then builds (trace o) = [] /\ In (Print skipping) (trace o)
           /\ result o = inl tt
      else exists r, builds (trace o) = [(tracename cfg, r)]
           /\ match r with
              | Some KeyboardInterrupt | None => result o = inl tt
              | Some e => result o = inr (Env e)
              end).
Proof.
  run_begin.
  cbv beta delta [hide_and_build try_except bind modify get print popen ret
    when].
  pose proof (hide_loop_run (local_symbol_files (set_rename_errors false v))
                (set_rename_errors false v) w) as H.
  cbv zeta in H. destruct H as (R & L & A & B & D & I).
  destruct (for_each (local_symbol_files (set_rename_errors false v)) hide
              (set_rename_errors false v) w) as [r1 v1 w1 t1].
  cbn [result locals world trace] in *. subst r1 v1.
  destruct v. cbn -[append]. destruct (hide_failed t1) eqn:HF;
    run_cases; run_end; rewrite ?A, ?B, ?D, ?I, ?HF; cbn -[append].
  all: unfold guard_update; cbn -[append]; trace_norm;
    rewrite ?HF; cbn -[append]; trace_norm.
  all: repeat split; try reflexivity;
    try (apply in_or_app; right; left; reflexivity);
    try (eexists; split; reflexivity).
Qed.

Lemma hidden_files_marker_suffixed (tr : list event) :
  Forall marker_suffixed (hidden_files tr).
Proof.
  induction tr as [|ev tr IH]; [constructor|].
  unfold hidden_files in *. cbn [flat_map]. apply Forall_app. split; [|exact IH].
  destruct ev as [| | | | | | |src dst [e|]| |]; try constructor.
  cbn. destruct (String.eqb dst (src ++ "x")) eqn:E; constructor.
  - apply String.eqb_eq in E. exact E.
  - constructor.
Qed.

Lemma rename_back_run (orig : string) (v : vars) (w : W) :
  let o := rename_back (orig, orig ++ "x") v w in
  result o = inl tt
  /\ locals o = v
  /\ restore_attempts (trace o) = [(orig, orig ++ "x")]
  /\ hidden_files (trace o) = []
  /\ builds (trace o) = []
  /\ rmtrees (trace o) = []
  /\ interrupted (trace o) = false
  /\ hide_failed (trace o) = false
  /\ forall src dst e,
       In (Rename src dst (Some e)) (trace o) ->
       In (Print (renaming_back_failed src (Env e))) (trace o).
Proof.
  run_begin.
  cbv beta delta [rename_back try_except bind rename print ret fst snd].
  run_cases; run_end; repeat split; try reflexivity.
  - intros src dst e' [H | [H | []]]; [|discriminate H].
    injection H as <- <- <-. right. left. reflexivity.
  - intros src dst e' [H | []]. discriminate H.
Qed.

(** Lines 265-271. *)
Lemma restore_run (v : vars) (w : W) :
  Forall marker_suffixed (renames v) ->
  let o := restore v w in
  result o = inl tt
  /\ locals o = v
  /\ restore_attempts (trace o) = renames v
  /\ hidden_files (trace o) = []
  /\ builds (trace o) = []
  /\ rmtrees (trace o) = []
  /\ interrupted (trace o) = false
  /\ hide_failed (trace o) = false
  /\ forall src dst e,
       In (Rename src dst (Some e)) (trace o) ->
       In (Print (renaming_back_failed src (Env e))) (trace o).
Proof.
  intros Hs. unfold restore. cbv zeta. rewrite bind_run.
  cbn [get result locals world trace app].
  generalize dependent (renames v). intros rs Hs.
  cut (let o := for_each rs rename_back v w in
       result o = inl tt /\ locals o = v
       /\ restore_attempts (trace o) = rs /\ hidden_files (trace o) = []
       /\ builds (trace o) = [] /\ rmtrees (trace o) = []
       /\ interrupted (trace o) = false /\ hide_failed (trace o) = false
       /\ forall src dst e,
            In (Rename src dst (Some e)) (trace o) ->
            In (Print (renaming_back_failed src (Env e))) (trace o)).
  { cbv zeta. destruct (for_each rs rename_back v w) as [r v1 w1 t1].
    cbn. intros (-> & -> & H). exact (conj eq_refl (conj eq_refl H)). }
  revert w. induction Hs as [|[orig temp] rs Hr Hs IH]; intros w.
  - cbn. repeat split; try reflexivity. intros src dst e [].
  - unfold marker_suffixed in Hr. cbn in Hr. subst temp.
    rewrite for_each_cons. cbv zeta. rewrite bind_run.
    destruct (rename_back_run orig v w)
      as (R1 & L1 & A1 & H1 & B1 & D1 & I1 & F1 & G1).
    cbv zeta in *. rewrite R1, L1.
    destruct (IH (world (rename_back (orig, orig ++ "x") v w)))
      as (R2 & L2 & A2 & H2 & B2 & D2 & I2 & F2 & G2).
    cbn [result locals world trace].
    rewrite restore_attempts_app, hidden_files_app, builds_app, rmtrees_app,
      interrupted_app, hide_failed_app.
    rewrite R2, L2, A1, A2, H1, H2, B1, B2, D1, D2, I1, I2, F1, F2.
    repeat split; try reflexivity.
    intros src dst e Hin. apply in_app_or in Hin. apply in_or_app.
    destruct Hin as [Hin | Hin];
      [left; exact (G1 _ _ _ Hin) | right; exact (G2 _ _ _ Hin)].
Qed.

Lemma restore_attempts_In (tr : list event) (src dst : string)
      (r : option env_exn) :
  In (Rename src dst r) tr -> String.eqb src (dst ++ "x") = true ->
  In (dst, src) (restore_attempts tr).
Proof.
  intros Hin Hs. unfold restore_attempts. apply in_flat_map.
  exists (Rename src dst r). split; [exact Hin|].
  cbn. rewrite Hs. now left.
Qed.

Lemma builds_In (tr : list event) (t : string) (r : option env_exn) :
  In (t, r) (builds tr) <-> In (Popen (XperfBuild t) r) tr.
Proof.
  unfold builds. rewrite in_flat_map. split.
  - intros (ev & Hin & Hev).
    destruct ev as [| | |c r'| | | | | |]; try contradiction.
    destruct c; try contradiction.
    destruct Hev as [[= <- <-] | []]. exact Hin.
  - intros Hin. exists (Popen (XperfBuild t) r). split; [exact Hin | now left].
Qed.

(** Lines 227-271. *)
Lemma hide_build_restore_run (cfg : config) (v : vars) (w : W) :
  let o := hide_build_restore cfg v w in
  tempdirs (locals o) = tempdirs v
  /\ symcache_files (locals o) = symcache_files v
  /\ symbol_path (locals o) = PyStr.join ";" (tempdirs v)
  /\ error (locals o) = interrupted (trace o)
  /\ rmtrees (trace o) = []
  /\ (if hide_failed (trace o)
      then builds (trace o) = [] /\ In (Print skipping) (trace o)
           /\ result o = inl tt
      else exists r, builds (trace o) = [(tracename cfg, r)]
           /\ match r with
              | Some KeyboardInterrupt | None => result o = inl tt
              | Some e => result o = inr (Env e)
              end)
  /\ (result o = inl tt ->
      renames (locals o) = hidden_files (trace o)
      /\ restore_attempts (trace o) = hidden_files (trace o)
      /\ forall src dst e,
           In (Rename src dst (Some e)) (trace o) ->
           String.eqb src (dst ++ "x") = true ->
           In (Print (renaming_back_failed src (Env e))) (trace o))
  /\ (result o <> inl tt -> restore_attempts (trace o) = []).
Proof.
  run_begin.
  cbv beta delta [hide_build_restore bind get modify print environ_set].
  cbn -[append hide_and_build restore].
  match goal with
  | |- context [hide_and_build ?c ?v1 ?w1] =>
      pose proof (hide_and_build_run c v1 w1) as H;
      destruct (hide_and_build c v1 w1) as [r1 v2 w2 t2]
  end.
  cbv zeta in H. cbn [result locals world trace] in H.
  destruct H as (L & A & D & B).
  destruct r1 as [[]|e].
  - assert (Hs : Forall marker_suffixed (renames v2)).
    { rewrite L. cbn. apply hidden_files_marker_suffixed. }
    pose proof (restore_run v2 w2 Hs) as H. cbv zeta in H.
    destruct (restore v2 w2) as [r3 v3 w3 t3].
    cbn [result locals world trace] in H.
    destruct H as (-> & -> & A3 & H3 & B3 & D3 & I3 & F3 & G3).
    run_end. rewrite A, D, A3, H3, B3, D3, I3, F3, L. cbn -[append]. trace_norm.
    repeat split; try reflexivity.
    + destruct (hide_failed t2).
      * destruct B as (B1 & B2 & _). repeat split; [exact B1|].
        right. right. apply in_or_app. now left.
      * exact B.
    + intros src dst e [Hi | [Hi | Hi]] S; try discriminate Hi.
      right. right. apply in_or_app. apply in_app_or in Hi.
      destruct Hi as [Hi | Hi].
      * apply (restore_attempts_In _ _ _ _ Hi) in S. rewrite A in S.
        destruct S.
      * right. exact (G3 _ _ _ Hi).
    + intros C. now contradiction C.
  - run_end. rewrite A, D, L. cbn -[append]. trace_norm.
    do 5 (split; [reflexivity|]).
    split; [|split; [intros C; discriminate C | intros _; reflexivity]].
    destruct (hide_failed t2).
    + destruct B as (_ & _ & B3). discriminate B3.
    + exact B.
Qed.

End Guard.

(** ** Verification and cleanup *)

Lemma set_error_set_error (a b : bool) (v : vars) :
  set_error b (set_error a v) = set_error b v.
Proof. reflexivity. Qed.

Lemma set_error_same (v : vars) : set_error (error v) v = v.
Proof. now destruct v. Qed.

Section Cleanup.
Context {W : Type} {os : OS W}.

Lemma check_generated_run (f : string) (v : vars) (w : W) :
  let o := check_generated f v w in
  result o = inl tt
  /\ world o = w
  /\ locals o = set_error (error v || negb (os_path_exists f w)) v
  /\ calls (trace o) = [].
Proof.
  run_begin. cbv beta delta [check_generated bind exists_ print modify ret].
  cbn -[append]. destruct (os_path_exists f w); cbn -[append]; run_end;
    rewrite ?orb_false_r, ?orb_true_r, ?set_error_same; repeat split;
    reflexivity.
Qed.

Lemma verify_loop_run (files : list string) (v : vars) (w : W) :
  let o := for_each files check_generated v w in
  result o = inl tt
  /\ world o = w
  /\ locals o = set_error (error v || negb (all_exist files w)) v
  /\ calls (trace o) = [].
Proof.
  revert v. induction files as [|f files IH]; intros v.
  - cbn. rewrite orb_false_r, set_error_same. repeat split; reflexivity.
  - rewrite for_each_cons. cbv zeta. rewrite bind_run.
    destruct (check_generated_run f v w) as (R1 & W1 & L1 & C1).
    cbv zeta in *. rewrite R1, W1, L1.
    destruct (IH (set_error (error v || negb (os_path_exists f w)) v))
      as (R2 & W2 & L2 & C2).
    cbn [result locals world trace]. rewrite calls_app, R2, W2, L2, C1, C2.
    repeat split; try reflexivity.
    cbn [error set_error all_exist forallb]. rewrite set_error_set_error.
    f_equal. fold (all_exist files w).
    destruct (error v), (os_path_exists f w), (all_exist files w); reflexivity.
Qed.

(** Lines 272-277. *)
Lemma verify_run (v : vars) (w : W) :
  let o := verify v w in
  result o = inl tt
  /\ world o = w
  /\ locals o = set_error (error v || negb (all_exist (symcache_files v) w)) v
  /\ calls (trace o) = [].
Proof.
  unfold verify. cbv zeta. rewrite bind_run. cbn [get result locals world trace app].
  destruct (verify_loop_run (symcache_files v) v w) as (R & Wd & L & C).
  cbv zeta in *. rewrite R, Wd, L, C. repeat split; reflexivity.
Qed.

Lemma rmtree_loop_run (dirs : list string) (v : vars) (w : W) :
  let o := for_each dirs rmtree v w in
  result o = inl tt /\ locals o = v /\ trace o = map Rmtree dirs.
Proof.
  revert w. induction dirs as [|d dirs IH]; intros w.
  - cbn. repeat split; reflexivity.
  - rewrite for_each_cons. cbv zeta. rewrite bind_run.
    cbn [rmtree result locals world trace].
    destruct (IH (shutil_rmtree d w)) as (R & L & T).
    rewrite R, L, T. repeat split; reflexivity.
Qed.

Lemma rmtrees_map_Rmtree (dirs : list string) : rmtrees (map Rmtree dirs) = dirs.
Proof.
  induction dirs as [|d dirs IH]; [reflexivity|].
  cbn [map]. rewrite rmtrees_cons, IH. reflexivity.
Qed.

Lemma calls_only_rmtree (dirs : list string) :
  hidden_files (map Rmtree dirs) = []
  /\ restore_attempts (map Rmtree dirs) = []
  /\ builds (map Rmtree dirs) = []
  /\ interrupted (map Rmtree dirs) = false
  /\ hide_failed (map Rmtree dirs) = false.
Proof.
  induction dirs as [|d dirs (A & B & C & D & E)]; [repeat split|].
  cbn [map]. trace_norm. rewrite A, B, C, D, E. repeat split.
Qed.

(** A trace of printing only. *)
Lemma no_calls_quiet (tr : list event) :
  calls tr = [] ->
  hidden_files tr = [] /\ restore_attempts tr = [] /\ builds tr = []
  /\ rmtrees tr = [] /\ interrupted tr = false /\ hide_failed tr = false.
Proof.
  induction tr as [|ev tr IH]; [repeat split|].
  rewrite calls_cons. destruct ev; cbn [is_call]; try discriminate;
    intros H; destruct (IH H) as (A & B & C & D & E & F); trace_norm;
    rewrite A, B, C, D, E, F; repeat split.
Qed.

(** Lines 278-285. *)
Lemma cleanup_run (v : vars) (w : W) :
  let o := cleanup v w in
  result o = inl tt
  /\ locals o = v
  /\ rmtrees (trace o) = (if error v then [] else tempdirs v)
  /\ (error v = true -> In (Print (retry_hint (symbol_path v))) (trace o))
  /\ hidden_files (trace o) = []
  /\ restore_attempts (trace o) = []
  /\ builds (trace o) = []
  /\ interrupted (trace o) = false
  /\ hide_failed (trace o) = false.
Proof.
  unfold cleanup. cbv zeta. rewrite bind_run. cbn [get result locals world trace app].
  destruct (error v) eqn:E.
  - cbv beta delta [bind print]. cbn -[append]. trace_norm.
    repeat split; try reflexivity. intros _. right. right. now left.
  - destruct (rmtree_loop_run (tempdirs v) v w) as (R & L & T).
    cbv zeta in *. rewrite R, L, T, rmtrees_map_Rmtree.
    destruct (calls_only_rmtree (tempdirs v)) as (A & B & C & D & F).
    rewrite A, B, C, D, F. repeat split; try reflexivity. discriminate.
Qed.

End Cleanup.

(** ** The conversion phase and the whole run *)

Section Run.
Context {W : Type} {os : OS W}.

(** Lines 227-285, in terms of lines 227-271. *)
Lemma convert_run (cfg : config) (v : vars) (w : W) :
  let o1 := hide_build_restore cfg v w in
  let o := convert cfg v w in
  result o = result o1
  /\ (exists rest, trace o = (trace o1 ++ rest)%list)
  /\ hide_failed (trace o) = hide_failed (trace o1)
  /\ builds (trace o) = builds (trace o1)
  /\ restore_attempts (trace o) = restore_attempts (trace o1)
  /\ hidden_files (trace o) = hidden_files (trace o1)
  /\ interrupted (trace o) = interrupted (trace o1)
  /\ (result o1 = inl tt ->
      let kept := interrupted (trace o1)
                  || negb (all_exist (symcache_files v) (world o1)) in
      rmtrees (trace o) = (if kept then [] else tempdirs v)
      /\ (kept = true ->
          In (Print (retry_hint (PyStr.join ";" (tempdirs v)))) (trace o)))
  /\ (result o1 <> inl tt -> rmtrees (trace o) = [])
  /\ renames (locals o) = renames (locals o1).
Proof.
  cbv zeta. unfold convert.
  pose proof (hide_build_restore_run cfg v w) as H. cbv zeta in H.
  destruct H as (T1 & S1 & P1 & E1 & D1 & _).
  rewrite bind_run.
  destruct (hide_build_restore cfg v w) as [[[]|e] v1 w1 t1];
    cbn [result locals world trace] in *.
  - rewrite bind_run.
    pose proof (verify_run v1 w1) as H. cbv zeta in H.
    destruct (verify v1 w1) as [r2 v2 w2 t2].
    cbn [result locals world trace] in H.
    destruct H as (-> & -> & -> & C2).
    destruct (no_calls_quiet _ C2) as (A2 & B2 & G2 & D2 & I2 & F2).
    cbn [result locals world trace].
    pose proof (cleanup_run
                  (set_error (error v1 || negb (all_exist (symcache_files v1) w1)) v1)
                  w1) as H.
    cbv zeta in H.
    destruct (cleanup _ _) as [r3 v3 w3 t3].
    cbn [result locals world trace error set_error symbol_path tempdirs] in H.
    destruct H as (-> & -> & D3 & P3 & A3 & B3 & G3 & I3 & F3).
    cbn [result locals world trace]. trace_norm.
    rewrite D1, A2, B2, G2, D2, I2, F2, D3, A3, B3, G3, I3, F3. trace_norm.
    rewrite <- E1, S1, T1 in *. rewrite P1 in P3.
    split; [reflexivity|]. split; [now exists (t2 ++ t3)%list|].
    do 5 (split; [reflexivity|]).
    split; [|split; [|reflexivity]].
    + intros _. split; [reflexivity|].
      intros K. apply in_or_app. right. apply in_or_app. right. now apply P3.
    + intros C. now contradiction C.
  - trace_norm. rewrite D1.
    split; [reflexivity|]. split; [exists []; now rewrite app_nil_r|].
    do 5 (split; [reflexivity|]).
    split; [intros C; discriminate C | split; reflexivity].
Qed.

(** Lines 226-290. *)
Lemma finish_run (cfg : config) (v : vars) (w : W) :
  (tempdirs v <> [] /\ finish cfg v w = convert cfg v w)
  \/ (tempdirs v = [] /\ result (finish cfg v w) = inl tt
      /\ calls (trace (finish cfg v w)) = []).
Proof.
  unfold finish. rewrite bind_run. cbn [get result locals world trace app].
  destruct (tempdirs v) as [|d ds] eqn:T.
  - right. split; [reflexivity|]. cbn [List.length Nat.eqb negb].
    unfold strip_and_translate. destruct (found_uncached v); cbn; auto.
  - left. split; [discriminate|]. cbn [List.length Nat.eqb negb].
    now destruct (convert cfg v w).
Qed.

Lemma convert_sat cfg :
  sat (fun _ => true) from_env (convert (W := W) cfg).
Proof.
  intros v w. split; [apply Forall_forall; reflexivity|].
  intros e He.
  destruct (convert_run cfg v w) as (R & _). cbv zeta in R. rewrite R in He.
  destruct (hide_build_restore_run cfg v w) as (_ & _ & _ & _ & _ & B & _).
  cbv zeta in B. destruct (hide_failed _).
  - destruct B as (_ & _ & B). rewrite B in He. discriminate He.
  - destruct B as ([[| |]|] & _ & B); rewrite B in He; try discriminate He;
      injection He as <-; unfold from_env; eauto.
Qed.

Lemma finish_sat cfg :
  sat (fun _ => true) from_env (finish (W := W) cfg).
Proof.
  intros v w. split; [apply Forall_forall; reflexivity|].
  intros e He. destruct (finish_run cfg v w) as [[_ F] | (_ & F & _)].
  - rewrite F in He. now apply (proj2 (convert_sat cfg v w)).
  - rewrite F in He. discriminate He.
Qed.

(** [main]: either it stops before line 226, having only scanned, or it
    runs lines 226-290 after a scan. *)
Lemma main_run (sy : sys) (v : vars) (w : W) :
  let o := main sy v w in
  (exists e, result o = inr e /\ exit_zero e
             /\ Forall (fun ev => scan_event ev = true) (trace o))
  \/ (exists cfg v1 w1 scanned,
         Forall (fun ev => scan_event ev = true) scanned
         /\ trace o = (scanned ++ trace (finish cfg v1 w1))%list
         /\ result o = result (finish cfg v1 w1)
         /\ locals o = locals (finish cfg v1 w1)
         /\ world o = world (finish cfg v1 w1)).
Proof.
  cbv zeta. unfold main. rewrite bind_run.
  destruct (prepare_sat sy v w) as [P1 E1].
  destruct (prepare sy v w) as [[cfg|e] v1 w1 t1];
    cbn [result locals world trace] in *.
  - rewrite bind_run.
    destruct (scan_sat cfg v1 w1) as [P2 E2].
    destruct (scan cfg v1 w1) as [[[]|e] v2 w2 t2];
      cbn [result locals world trace] in *.
    + right. exists cfg, v2, w2, (t1 ++ t2)%list.
      split; [apply Forall_app; now split|].
      rewrite app_assoc. repeat split; reflexivity.
    + left. exists e. split; [reflexivity|]. split; [now apply E2|].
      apply Forall_app; now split.
  - left. exists e. split; [reflexivity|]. split; [now apply E1 | exact P1].
Qed.

End Run.

Lemma scan_events_calm (tr : list event) :
  Forall (fun ev => scan_event ev = true) tr ->
  hide_failed tr = false /\ interrupted tr = false.
Proof.
  induction 1 as [|ev tr Hev _ [IH1 IH2]]; [split; reflexivity|].
  rewrite hide_failed_cons, interrupted_cons, IH1, IH2.
  destruct ev as [| | |c r| | | | | |]; try discriminate Hev;
    try (split; reflexivity).
  destruct c; try discriminate Hev. split; reflexivity.
Qed.

Lemma hidden_files_In (tr : list event) (p q : string) :
  In (p, q) (hidden_files tr) -> In (Rename p q None) tr /\ q = p ++ "x".
Proof.
  unfold hidden_files. rewrite in_flat_map. intros (ev & Hin & Hev).
  destruct ev as [| | | | | | |src dst [e|]| |]; try contradiction.
  cbn in Hev. destruct (String.eqb dst (src ++ "x")) eqn:E; [|contradiction].
  destruct Hev as [[= <- <-] | []]. apply String.eqb_eq in E. now split.
Qed.

Lemma app_eq_self {A} (l r : list A) : (l ++ r)%list = l -> r = [].
Proof.
  intros H. apply (app_inv_head l). now rewrite app_nil_r.
Qed.

Lemma In_calls (tr : list event) (ev : event) :
  In ev tr -> is_call ev = true -> In ev (calls tr).
Proof. intros Hin Hc. apply filter_In. now split. Qed.

(** ** The claims *)

Section Claims.
Context {W : Type} {os : OS W}.

Lemma convert_guard (cfg : config) (v : vars) (w : W) :
  let o := convert cfg v w in
  build_returned_or_interrupted (trace o) ->
  result o = inl tt
  /\ renames (locals o) = hidden_files (trace o)
  /\ restore_attempts (trace o) = hidden_files (trace o)
  /\ forall src dst e,
       In (Rename src dst (Some e)) (trace o) ->
       String.eqb src (dst ++ "x") = true ->
       In (Print (renaming_back_failed src (Env e))) (trace o).
Proof.
  cbv zeta. intros Hb.
  destruct (convert_run cfg v w)
    as (R & [rest T] & F & B & A & H & I & _ & _ & N).
  destruct (hide_build_restore_run cfg v w)
    as (_ & _ & _ & _ & _ & B1 & G1 & _).
  cbv zeta in *.
  assert (R1 : result (hide_build_restore cfg v w) = inl tt).
  { destruct (hide_failed (trace (hide_build_restore cfg v w))).
    - now destruct B1 as (_ & _ & B1).
    - destruct B1 as (r & Hr & B1). rewrite <- B in Hr.
      destruct r as [[| |]|]; try exact B1;
        specialize (Hb (tracename cfg) _ ltac:(rewrite Hr; now left));
        discriminate Hb. }
  destruct (G1 R1) as (G2 & G3 & G4).
  rewrite R, N, A, H. repeat split; try assumption.
  intros src dst e Hin Hs. rewrite T in Hin |- *.
  apply in_or_app. left. apply in_app_or in Hin. destruct Hin as [Hin|Hin].
  - now apply (G4 src dst e).
  - exfalso. rewrite T, restore_attempts_app in A. apply app_eq_self in A.
    apply (restore_attempts_In _ _ _ _ Hin) in Hs. rewrite A in Hs. destruct Hs.
Qed.



End Claims.

Section MoreClaims.
Context {W : Type} {os : OS W}.


(** C10. Whenever [main] ends by [sys.exit], the status is 0, and so it is
    when [main] returns; the usage exit is one such exit, and so is the exit
    taken when _NT_SYMBOL_PATH lacks the symbol-server marker.  No call of
    [sys.exit] sets another status. *)
Theorem every_exit_reports_success (sy : sys) (v : vars) (w : W) :
  let o := main sy v w in
  match result o with
  | inr (Env _) | inr ValueError => True
  | r => exit_status r = 0%Z
  end
  /\ (args sy = [] -> result o = inr (SystemExit 0))
  /\ (args sy <> [] ->
      ((version_major sy =? 2) && (version_minor sy <? 7))%Z = false ->
      PyStr.count (path_of (os_environ "_NT_SYMBOL_PATH" w))
                  "chromium-browser-symsrv" = 0 ->
      result o = inr (SystemExit 0)).
Proof.
  cbv zeta. split; [|split].
  - destruct (main_run sy v w)
      as [(e & R & E & _) | (cfg & v1 & w1 & sc & _ & _ & R & _)];
      cbv zeta in *.
    + rewrite R. destruct e as [x| |code]; cbn in *; auto.
    + rewrite R. destruct (finish_sat cfg v1 w1) as [_ F].
      destruct (result (finish cfg v1 w1)) as [[]|e]; [reflexivity|].
      destruct (F e eq_refl) as [x ->]. exact I.
  - intros A. unfold main, prepare. rewrite A. reflexivity.
  - intros A V C. unfold main, prepare.
    destruct (args sy) as [|a rest]; [now contradiction A|].
    rewrite V.
    cbv beta delta [bind when print sys_exit raise environ_get modify ret].
    cbn -[append PyStr.count]. rewrite C. reflexivity.
Qed.

End MoreClaims.

Section CacheClaims.
Context {W : Type} {os : OS W}.


(** C9. When a file exists at [local_pdb ++ "x"], hiding [local_pdb] first
    calls [os.remove] on that path; the rename runs in the world the removal
    left, and only if the removal did not raise.  These are the only calls:
    what was stored at the temporary path is not kept anywhere. *)
Theorem existing_temp_file_is_removed_before_rename
        (local_pdb : string) (v : vars) (w : W) :
  let temp_name := local_pdb ++ "x" in
  let o := hide local_pdb v w in
  let removal := os_remove temp_name w in
  let renaming := os_rename local_pdb temp_name (snd removal) in
  os_path_exists temp_name w = true ->
  match fst removal with
  | None =>
      calls (trace o) = [ Remove temp_name None;
                          Rename local_pdb temp_name (fst renaming) ]
      /\ world o = snd renaming
  | Some e =>
      calls (trace o) = [ Remove temp_name (Some e) ]
      /\ world o = snd removal
  end.
Proof.
  cbv zeta. intros E.
  destruct (os_remove (local_pdb ++ "x") w) as [r1 w1] eqn:Rm.
  cbn [fst snd].
  destruct (os_rename local_pdb (local_pdb ++ "x") w1) as [r2 w2] eqn:Rn.
  cbn [fst snd].
  cbv beta delta [hide try_except bind when exists_ remove rename print modify
    ret].
  cbn -[append]. rewrite E. cbn -[append]. rewrite Rm.
  destruct r1 as [e|]; cbn -[append].
  - trace_norm. split; reflexivity.
  - rewrite Rn. destruct r2 as [e|]; cbn -[append]; trace_norm;
      split; reflexivity.
Qed.

(** C5. A line that carries a signature whose symcache file already exists
    does nothing: no call, nothing printed, no variable changed, the world
    as it was.  In particular no retrieval, no copy, no directory, and no
    entry in [local_symbol_files], so no rename later on its account. *)
Theorem cached_record_is_dropped
        (cfg : config) (line : string) (r : SymbolRecord) (v : vars) (w : W) :
  parse_line line = inl (Some r) ->
  os_path_exists (symcache_file (rec_dll r) (rec_guid r) (rec_age r)) w = true ->
  scan_line cfg line v w = mkOutcome (inl tt) v w [].
Proof.
  intros P E. unfold scan_line. rewrite P.
  unfold process_record. rewrite bind_run.
  cbn [exists_ result locals world trace]. rewrite E. reflexivity.
Qed.

End CacheClaims.

(** ** The symcache file name *)

Lemma replace_hyphens (s : string) :
  PyStr.replace s "-" "" = without_hyphens s.
Proof.
  unfold PyStr.replace. induction s as [|c s IH]; [reflexivity|].
  cbn [PyStr.replace_from without_hyphens prefix String.length Nat.sub].
  destruct (Ascii.eqb c "-") eqn:E.
  - apply Ascii.eqb_eq in E. subst c. cbn. destruct s; exact IH.
  - assert (H : (if ascii_dec "-" c then prefix "" s else false) = false).
    { destruct (ascii_dec "-" c) as [<-|]; [discriminate E | reflexivity]. }
    cbn [prefix]. rewrite H. now rewrite IH.
Qed.

Lemma lower_hex_of_uint (d : Hexadecimal.uint) :
  lower_hex (HexadecimalString.NilEmpty.string_of_uint d) = true.
Proof. induction d; cbn; auto. Qed.

Ltac digit_value :=
  match goal with
  | |- context [hex_digit_value ?c] =>
      let r := eval vm_compute in (hex_digit_value c) in
      change (hex_digit_value c) with r; cbv iota
  end.

Lemma hex_value_from_acc (d : Hexadecimal.uint) (acc : positive) :
  hex_value_from (Zpos acc) (HexadecimalString.NilEmpty.string_of_uint d)
  = Some (Zpos (Pos.of_hex_uint_acc d acc)).
Proof.
  revert acc. induction d; intros acc;
    cbn [HexadecimalString.NilEmpty.string_of_uint hex_value_from
         Pos.of_hex_uint_acc];
    try reflexivity; digit_value;
    match goal with
    | |- hex_value_from ?z _ = Some (Zpos (Pos.of_hex_uint_acc _ ?q)) =>
        replace z with (Zpos q) by lia
    end;
    apply IHd.
Qed.

Lemma hex_value_from_zero (d : Hexadecimal.uint) :
  hex_value_from 0 (HexadecimalString.NilEmpty.string_of_uint d)
  = Some (Z.of_N (Pos.of_hex_uint d)).
Proof.
  induction d;
    cbn [HexadecimalString.NilEmpty.string_of_uint hex_value_from
         Pos.of_hex_uint];
    try reflexivity; digit_value; try exact IHd;
    match goal with
    | |- hex_value_from ?z _ = Some (Z.of_N (Npos (Pos.of_hex_uint_acc _ ?q))) =>
        change z with (Zpos q)
    end;
    apply hex_value_from_acc.
Qed.

Lemma hex_value_of_int (age : Z) :
  (0 <= age)%Z -> hex_value (PyStr.hex_of_int age) = Some age.
Proof.
  intros H. destruct age as [|p|p]; [reflexivity | | lia].
  unfold PyStr.hex_of_int. cbn [Z.to_hex_int HexadecimalString.NilEmpty.string_of_int].
  pose proof (HexadecimalPos.Unsigned.to_uint_nonnil p) as N.
  pose proof (hex_value_from_zero (Pos.to_hex_uint p)) as V.
  rewrite HexadecimalPos.Unsigned.of_to in V. cbn [Z.of_N] in V.
  unfold hex_value.
  destruct (HexadecimalString.NilEmpty.string_of_uint (Pos.to_hex_uint p)) eqn:S.
  - destruct (Pos.to_hex_uint p); try discriminate S. now contradiction N.
  - exact V.
Qed.

Lemma lower_hex_of_int (age : Z) :
  (0 <= age)%Z -> lower_hex (PyStr.hex_of_int age) = true.
Proof.
  intros H. destruct age as [|p|p]; [reflexivity | | lia].
  apply lower_hex_of_uint.
Qed.

(** C3. For a cache name, a GUID and a non-negative age, the symcache path
    is the cache root, a backslash, the cache name, a hyphen, the GUID
    without its hyphens, the age and "v2.symcache"; the age is written with
    the digits 0-9 and a-f only, so in lower case and without a 0x prefix,
    and read in base sixteen it is the age: 51 is written 33, where decimal
    would write 51. *)
Theorem symcache_file_name_format (cacheName guid : string) (age : Z) :
  (0 <= age)%Z ->
  let hex := PyStr.hex_of_int age in
  symcache_file cacheName (PyStr.replace guid "-" "") age
  = "c:\symcache" ++ "\" ++ cacheName ++ "-" ++ without_hyphens guid ++ hex
      ++ "v2.symcache"
  /\ lower_hex hex = true
  /\ hex_value hex = Some age
  /\ prefix "0x" hex = false
  /\ PyStr.hex_of_int 51 = "33"
  /\ PyStr.str_of_int 51 = "51".
Proof.
  cbv zeta. intros H.
  pose proof (lower_hex_of_int age H) as L.
  split; [unfold symcache_file; now rewrite replace_hyphens|].
  split; [exact L|]. split; [now apply hex_value_of_int|].
  split; [|split; reflexivity].
  destruct (PyStr.hex_of_int age) as [|c1 [|c2 rest]]; try reflexivity.
  - cbn [prefix]. now destruct (ascii_dec "0" c1).
  - cbn [prefix]. destruct (ascii_dec "0" c1); [|reflexivity].
    destruct (ascii_dec "x" c2) as [<-|]; [|reflexivity].
    cbn [lower_hex] in L. destruct (hex_digit_value c1); [|discriminate L].
    change (hex_digit_value "x") with (@None Z) in L. discriminate L.
Qed.

(** ** The trace scanner *)

Lemma dll_match_fold (line : string) :
  dll_match line
  = fold_left (pick line) dll_names
      (if names_chrome_child line then Some "chrome.dll" else None).
Proof. reflexivity. Qed.

Lemma fold_pick_none (line : string) (names : list string)
      (init : option string) :
  (forall m, In m names -> named line m = false) ->
  fold_left (pick line) names init = init.
Proof.
  revert init. induction names as [|n names IH]; intros init H; [reflexivity|].
  cbn [fold_left]. unfold pick at 2. rewrite (H n (or_introl eq_refl)).
  apply IH. intros m Hm. apply H. now right.
Qed.

Lemma fold_pick_last (line : string) (before after : list string) (n : string)
      (init : option string) :
  named line n = true ->
  (forall m, In m after -> named line m = false) ->
  fold_left (pick line) (before ++ n :: after) init = Some n.
Proof.
  intros Hn Ha. rewrite fold_left_app. cbn [fold_left].
  unfold pick at 2. rewrite Hn. now apply fold_pick_none.
Qed.

Lemma fold_pick_in (line : string) (names : list string)
      (init : option string) (x : string) :
  fold_left (pick line) names init = Some x -> init = Some x \/ In x names.
Proof.
  revert init. induction names as [|n names IH]; intros init H; [now left|].
  cbn [fold_left] in H. apply IH in H. destruct H as [H|H]; [|right; now right].
  unfold pick in H. destruct (named line n).
  - injection H as <-. right. now left.
  - now left.
Qed.



(** C6 fails as stated: [int(age)] raises on a line that names a module and
    matches the pattern but whose age field is not a decimal number, and
    the exception ends [main]. *)
Lemma trace_scanner_can_raise :
  ~ (forall lines, exists records, trace_scanner lines = inl records)
  /\ result (main sys0 v0 world_bad_age) = inr ValueError.
Proof.
  split; [|vm_compute; reflexivity].
  intros H. destruct (H [bad_age_line]) as [records R].
  assert (V : trace_scanner [bad_age_line] = inr ValueError)
    by (vm_compute; reflexivity).
  rewrite V in R. discriminate R.
Qed.

Lemma parse_line_raises (line : string) (e : exn) :
  parse_line line = inr e ->
  e = ValueError
  /\ dll_match line <> None
  /\ exists guid age path,
       pdb_re_match line = Some (guid, age, path)
       /\ PyStr.int_of_str age = None.
Proof.
  unfold parse_line. destruct (dll_match line) as [d|]; [|discriminate].
  destruct (pdb_re_match line) as [[[g a] q]|]; [|discriminate].
  destruct (PyStr.int_of_str a) eqn:I; [discriminate|].
  intros [= <-]. split; [reflexivity|]. split; [discriminate|].
  now exists g, a, q.
Qed.

(** C6, amended. A line that names no module is skipped, and so is a line
    that names one but does not match the signature pattern.  The only
    exception the scanner raises is the [ValueError] of [int(age)], on a
    line that names a module and matches the pattern; so on a sequence of
    lines whose matched age fields are all decimal numbers it completes
    without raising. *)
Theorem trace_scanner_completes_on_decimal_ages :
  (forall line, dll_match line = None -> parse_line line = inl None)
  /\ (forall line, pdb_re_match line = None -> parse_line line = inl None)
  /\ (forall line e,
         parse_line line = inr e ->
         e = ValueError
         /\ dll_match line <> None
         /\ exists guid age path,
              pdb_re_match line = Some (guid, age, path)
              /\ PyStr.int_of_str age = None)
  /\ (forall lines,
         (forall line guid age path,
             In line lines ->
             dll_match line <> None ->
             pdb_re_match line = Some (guid, age, path) ->
             PyStr.int_of_str age <> None) ->
         exists records, trace_scanner lines = inl records).
Proof.
  split; [|split; [|split; [exact parse_line_raises|]]].
  - intros line H. unfold parse_line. now rewrite H.
  - intros line H. unfold parse_line. rewrite H. now destruct (dll_match line).
  - induction lines as [|line lines IH]; intros H.
    + now exists [].
    + cbn [trace_scanner].
      destruct (parse_line line) as [r|e] eqn:P.
      * destruct IH as [rs ->].
        { intros l g a q Hin. apply H. now right. }
        eexists. reflexivity.
      * exfalso. apply parse_line_raises in P.
        destruct P as (_ & D & g & a & q & M & I).
        exact (H line g a q (or_introl eq_refl) D M I).
Qed.

(** ** The claims on the small file system *)



Lemma symcache_file_name_witness :
  (0 <= 33)%Z
  /\ symcache_file "chrome.dll"
       (PyStr.replace "0e7712be-af06-4421-884b-496f833c8ec1" "-" "") 33
     = local_cache
  /\ hex_value (PyStr.hex_of_int 33) = Some 33%Z.
Proof.
  assert (H : (0 <= 33)%Z) by lia.
  destruct (symcache_file_name_format
              "chrome.dll" "0e7712be-af06-4421-884b-496f833c8ec1" 33 H)
    as (A & _ & C & _).
  split; [exact H|]. split; [exact A | exact C].
Defined.


Lemma cached_record_witness :
  parse_line local_line
  = inl (Some (mkSymbolRecord "chrome.dll" "0e7712beaf064421884b496f833c8ec1"
                              33 local_pdb0))
  /\ os_path_exists local_cache world_cached = true
  /\ scan_line cfg0 local_line v0 world_cached
     = mkOutcome (inl tt) v0 world_cached [].
Proof.
  assert (P : parse_line local_line
              = inl (Some (mkSymbolRecord "chrome.dll"
                             "0e7712beaf064421884b496f833c8ec1" 33 local_pdb0)))
    by (vm_compute; reflexivity).
  assert (E : os_path_exists local_cache world_cached = true)
    by (vm_compute; reflexivity).
  split; [exact P|]. split; [exact E|].
  apply (cached_record_is_dropped cfg0 local_line _ v0 world_cached P).
  exact E.
Defined.

Lemma trace_scanner_witness :
  exists records, trace_scanner [local_line; "xperf: no signature here"]
                  = inl records.
Proof.
  assert (M1 : pdb_re_match local_line
               = Some ("0e7712be-af06-4421-884b-496f833c8ec1", "33",
                       local_pdb0))
    by (vm_compute; reflexivity).
  assert (M2 : pdb_re_match "xperf: no signature here" = None)
    by (vm_compute; reflexivity).
  destruct trace_scanner_completes_on_decimal_ages as (_ & _ & _ & A).
  apply A. intros line guid age path [<- | [<- | []]] _ M.
  - rewrite M1 in M. injection M as _ <- _. vm_compute. discriminate.
  - rewrite M2 in M. discriminate M.
Defined.




Lemma existing_temp_file_witness :
  os_path_exists (local_pdb0 ++ "x") world_stale_temp = true
  /\ calls (trace (hide local_pdb0 v0 world_stale_temp))
     = [ Remove (local_pdb0 ++ "x") None;
         Rename local_pdb0 (local_pdb0 ++ "x") None ]
  /\ Sim.lookup (local_pdb0 ++ "x")
       (Sim.sim_files (world (hide local_pdb0 v0 world_stale_temp)))
     = Some "private symbols"
  /\ existsb (fun kv => String.eqb (snd kv) "stale")
       (Sim.sim_files (world (hide local_pdb0 v0 world_stale_temp))) = false.
Proof.
  assert (E : os_path_exists (local_pdb0 ++ "x") world_stale_temp = true)
    by (vm_compute; reflexivity).
  pose proof (existing_temp_file_is_removed_before_rename
                local_pdb0 v0 world_stale_temp E) as H.
  cbv zeta in H.
  assert (Rm : fst (os_remove (local_pdb0 ++ "x") world_stale_temp) = None)
    by (vm_compute; reflexivity).
  rewrite Rm in H. destruct H as [H _].
  split; [exact E|]. split; [rewrite H; vm_compute; reflexivity|].
  split; vm_compute; reflexivity.
Defined.

Lemma exit_status_witness :
  result (main (mkSys "StripChromeSymbols.py" [] 2 7 "2.7.18") v0 world_ok)
  = inr (SystemExit 0)
  /\ result (main sys0 v0 world_no_marker) = inr (SystemExit 0).
Proof.
  assert (A : args sys0 <> []) by discriminate.
  assert (V : ((version_major sys0 =? 2) && (version_minor sys0 <? 7))%Z = false)
    by reflexivity.
  assert (C : PyStr.count
                (path_of (os_environ "_NT_SYMBOL_PATH" world_no_marker))
                "chromium-browser-symsrv" = 0)
    by (vm_compute; reflexivity).
  split.
  - exact (proj1 (proj2 (every_exit_reports_success
                           (mkSys "StripChromeSymbols.py" [] 2 7 "2.7.18")
                           v0 world_ok)) eq_refl).
  - exact (proj2 (proj2 (every_exit_reports_success sys0 v0 world_no_marker))
                 A V C).
Defined.

(** * Further properties of the script *)

(** ** More readers of a trace *)

(** The commands run through [subprocess.check_output], with the exception
    each raised. *)
Definition check_output_of (ev : event) : list (command * option env_exn) :=
  match ev with CheckOutput c r => [(c, r)] | _ => [] end.
Definition check_outputs (tr : list event)
  : list (command * option env_exn) :=
  flat_map check_output_of tr.

(** The values given to environment variables. *)
Definition environ_of (ev : event) : list (string * string) :=
  match ev with SetEnviron k x => [(k, x)] | _ => [] end.
Definition environ_sets (tr : list event) : list (string * string) :=
  flat_map environ_of tr.

(** The directories [tempfile.mkdtemp] created. *)
Definition mkdtemp_of (ev : event) : list string :=
  match ev with Mkdtemp (inl d) => [d] | _ => [] end.
Definition mkdtemps (tr : list event) : list string := flat_map mkdtemp_of tr.

(** The temporary name [hide] gives a local PDB. *)
Definition hidden_as (local_pdb : string) : string * string :=
  (local_pdb, local_pdb ++ "x").

Arguments check_outputs : simpl never.
Arguments environ_sets : simpl never.
Arguments mkdtemps : simpl never.

Lemma check_outputs_app (a b : list event) :
  check_outputs (a ++ b) = (check_outputs a ++ check_outputs b)%list.
Proof. apply flat_map_app. Qed.

Lemma environ_sets_app (a b : list event) :
  environ_sets (a ++ b) = (environ_sets a ++ environ_sets b)%list.
Proof. apply flat_map_app. Qed.

Lemma mkdtemps_app (a b : list event) :
  mkdtemps (a ++ b) = (mkdtemps a ++ mkdtemps b)%list.
Proof. apply flat_map_app. Qed.

(** ** Nothing is deleted unless [main] returns *)

Section Leak.
Context {W : Type} {os : OS W}.

(** X2. When [main] ends otherwise than by returning, through [sys.exit]
    or an exception, it has deleted no directory: what [mkdtemp] created
    until then stays on disk. *)
Theorem no_directory_deleted_unless_main_returns
        (sy : sys) (v : vars) (w : W) :
  let o := main sy v w in
  result o <> inl tt -> rmtrees (trace o) = [].
Proof.
  cbv zeta. intros N.
  destruct (main_run sy v w)
    as [(e & _ & _ & Hs) | (cfg & v1 & w1 & sc & Hs & T & R & _)];
    cbv zeta in *.
  - now destruct (scan_events_quiet _ Hs) as (_ & _ & _ & H & _).
  - destruct (scan_events_quiet _ Hs) as (_ & _ & _ & H & _).
    rewrite T, rmtrees_app, H. cbn [app]. rewrite R in N.
    destruct (finish_run cfg v1 w1) as [[_ F] | (_ & F & C)].
    + rewrite F in *.
      destruct (convert_run cfg v1 w1) as (Rc & _ & _ & _ & _ & _ & _ & _ & K & _).
      cbv zeta in *. apply K. now rewrite <- Rc.
    + rewrite F in N. now contradiction N.
Qed.

End Leak.

Lemma no_directory_deleted_witness :
  result (main sys0 v0 world_no_copy) <> inl tt
  /\ mkdtemps (trace (main sys0 v0 world_no_copy)) = ["T0"]
  /\ rmtrees (trace (main sys0 v0 world_no_copy)) = [].
Proof.
  assert (R : result (main sys0 v0 world_no_copy) = inr (SystemExit 0))
    by (vm_compute; reflexivity).
  assert (N : result (main sys0 v0 world_no_copy) <> inl tt)
    by (rewrite R; discriminate).
  split; [exact N|]. split; [vm_compute; reflexivity|].
  exact (no_directory_deleted_unless_main_returns sys0 v0 world_no_copy N).
Defined.

(** ** The build runs only behind hidden PDBs *)

Section Privacy.
Context {W : Type} {os : OS W}.

Lemma hide_all_or_failure (local_pdb : string) (v : vars) (w : W) :
  let o := hide local_pdb v w in
  hide_failed (trace o) = false ->
  hidden_files (trace o) = [hidden_as local_pdb].
Proof.
  run_begin. destruct v.
  cbv beta delta [hide try_except bind when exists_ remove rename print modify
    ret].
  run_cases; run_end; unfold hidden_as; trace_norm; cbn -[append];
    try discriminate; reflexivity.
Qed.

Lemma hide_loop_all_or_failure (files : list string) (v : vars) (w : W) :
  let o := for_each files hide v w in
  hide_failed (trace o) = false ->
  hidden_files (trace o) = map hidden_as files.
Proof.
  revert v w. induction files as [|p files IH]; intros v w; [reflexivity|].
  rewrite for_each_cons. cbv zeta. rewrite bind_run.
  destruct (hide_run p v w) as (R1 & _).
  pose proof (hide_all_or_failure p v w) as H1.
  cbv zeta in *. rewrite R1. cbn [result locals world trace].
  rewrite hide_failed_app, hidden_files_app. intros F.
  apply orb_false_iff in F. destruct F as [F1 F2].
  rewrite (H1 F1), (IH _ _ F2). reflexivity.
Qed.


End Privacy.


(** ** The copy step and its one retry *)

Section CopyStep.
Context {W : Type} {os : OS W}.

(** X3. Lines 199-217.  Without the un-fastlink tool pdbcopy runs once and
    its exception, if any, leaves the step.  With the tool, pdbcopy runs
    once if it succeeds; if it raises anything at all, Ctrl+C included, the
    exception is swallowed, the tool is run once on the PDB itself, and only
    if the tool succeeds pdbcopy is run a second and last time.  The tool
    never runs before a failed pdbcopy, and neither command runs more often
    than that. *)
Theorem pdbcopy_is_retried_once_after_unfastlink
        (cfg : config) (pdb_cache_path : string) (copy_command : command)
        (v : vars) (w : W) :
  let o := copy_step cfg pdb_cache_path copy_command v w in
  match un_fastlink_tool cfg with
  | None =>
      exists r, check_outputs (trace o) = [(copy_command, r)]
                /\ result o = of_err r
  | Some tool =>
      let convert_command := UnFastlink tool pdb_cache_path in
      (check_outputs (trace o) = [(copy_command, None)]
       /\ result o = inl tt)
      \/ (exists e e',
             check_outputs (trace o)
             = [(copy_command, Some e); (convert_command, Some e')]
             /\ result o = inr (Env e'))
      \/ (exists e r,
             check_outputs (trace o)
             = [(copy_command, Some e); (convert_command, None);
                (copy_command, r)]
             /\ result o = of_err r)
  end.
Proof.
  cbv zeta. unfold copy_step. destruct (un_fastlink_tool cfg) as [tool|];
    cbv beta delta [run_copy try_except bind check_output when print
      print_no_newline ret bare_except];
    run_cases; unfold check_outputs;
    cbn [flat_map check_output_of app].
  all: try (eexists; split; reflexivity).
  all: try (left; split; reflexivity).
  all: try (right; left; do 2 eexists; split; reflexivity).
  all: try (right; right; do 2 eexists; split; reflexivity).
Qed.

End CopyStep.

(** ** A warm cache *)

(** The line is skipped by the scanner, or the symcache file of its
    signature exists. *)
Definition cached_or_skipped {W : Type} {os : OS W} (w : W) (line : string)
  : Prop :=
  match parse_line line with
  | inl None => True
  | inl (Some r) =>
      os_path_exists (symcache_file (rec_dll r) (rec_guid r) (rec_age r)) w
      = true
  | inr _ => False
  end.

Definition nothing_uncached : string :=
  "No uncached PDBS found, nothing to do.".

Section WarmCache.
Context {W : Type} {os : OS W}.

Lemma scan_line_cached (cfg : config) (line : string) (v : vars) (w : W) :
  cached_or_skipped w line ->
  scan_line cfg line v w = mkOutcome (inl tt) v w [].
Proof.
  unfold cached_or_skipped, scan_line.
  destruct (parse_line line) as [[r|]|e]; [| reflexivity | intros []].
  intros E. unfold process_record. rewrite bind_run.
  cbn [exists_ result locals world trace]. rewrite E. reflexivity.
Qed.

Lemma scan_loop_cached (cfg : config) (lines : list string) (v : vars) (w : W) :
  (forall line, In line lines -> cached_or_skipped w line) ->
  for_each lines (scan_line cfg) v w = mkOutcome (inl tt) v w [].
Proof.
  induction lines as [|line lines IH]; intros H; [reflexivity|].
  rewrite for_each_cons, bind_run.
  rewrite (scan_line_cached cfg line v w (H line (or_introl eq_refl))).
  cbn [result locals world trace app]. rewrite IH; [reflexivity|].
  intros l Hl. apply H. now right.
Qed.

(** X4. Lines 116-169 and 286-290.  When xperf lists only lines that the
    scanner skips or whose symcache file already exists, the rest of [main]
    calls nothing but that one xperf: no retrieval, no copy, no directory,
    no rename, no build, no change of the environment.  It leaves the world
    as xperf left it, reports that nothing is uncached, and returns. *)
Theorem warm_cache_runs_only_the_xperf_listing
        (cfg : config) (v : vars) (w w1 : W) (listing : string) :
  let o := bind (scan cfg) (fun _ => finish cfg) v w in
  subprocess_check_output (command_line (XperfSymcache (tracename cfg))) w
  = (inl listing, w1) ->
  (forall line, In line (PyStr.splitlines listing) ->
                cached_or_skipped w1 line) ->
  result o = inl tt
  /\ world o = w1
  /\ calls (trace o) = [CheckOutput (XperfSymcache (tracename cfg)) None]
  /\ In (Print nothing_uncached) (trace o)
  /\ symcache_files (locals o) = []
  /\ tempdirs (locals o) = []
  /\ local_symbol_files (locals o) = [].
Proof.
  cbv zeta. intros X H.
  cbv beta delta [scan finish bind modify print check_output get].
  cbn -[append for_each PyStr.splitlines command_line].
  rewrite X. cbn -[append for_each PyStr.splitlines command_line].
  rewrite (scan_loop_cached cfg _ _ w1 H).
  cbn -[append command_line]. trace_norm. repeat split; try reflexivity.
  do 3 right. now left.
Qed.

End WarmCache.

Lemma warm_cache_witness :
  subprocess_check_output (command_line (XperfSymcache (tracename cfg0)))
                          world_cached
  = (inl local_line, world_cached)
  /\ (forall line, In line (PyStr.splitlines local_line) ->
                   cached_or_skipped world_cached line)
  /\ calls (trace (bind (scan cfg0) (fun _ => finish cfg0) v0 world_cached))
     = [CheckOutput (XperfSymcache "trace.etl") None].
Proof.
  assert (X : subprocess_check_output
                (command_line (XperfSymcache (tracename cfg0))) world_cached
              = (inl local_line, world_cached))
    by (vm_compute; reflexivity).
  assert (S : PyStr.splitlines local_line = [local_line])
    by (vm_compute; reflexivity).
  assert (C : cached_or_skipped world_cached local_line)
    by (vm_compute; reflexivity).
  assert (H : forall line, In line (PyStr.splitlines local_line) ->
                           cached_or_skipped world_cached line).
  { intros line Hin. rewrite S in Hin. destruct Hin as [<- | []]. exact C. }
  split; [exact X|]. split; [exact H|].
  exact (proj1 (proj2 (proj2
           (warm_cache_runs_only_the_xperf_listing
              cfg0 v0 world_cached world_cached local_line X H)))).
Defined.

(** ** Only directories of this run are deleted *)

(** [tracks m]: [m] adds to [tempdirs] exactly the directories that
    [mkdtemp] created while it ran, in order, also when it raises. *)
Definition tracks {W A : Type} (m : M W A) : Prop :=
  forall v w,
    tempdirs (locals (m v w))
    = (tempdirs v ++ mkdtemps (trace (m v w)))%list.

(** An event other than a successful [mkdtemp]. *)
Definition no_mkdtemp (ev : event) : bool :=
  match ev with Mkdtemp (inl _) => false | _ => true end.

Lemma no_mkdtemp_quiet (tr : list event) :
  Forall (fun ev => no_mkdtemp ev = true) tr -> mkdtemps tr = [].
Proof.
  induction 1 as [|ev tr Hev _ IH]; [reflexivity|].
  change (mkdtemps (ev :: tr)) with (mkdtemp_of ev ++ mkdtemps tr)%list.
  rewrite IH. destruct ev as [| | | |[d|e]| | | | |]; try reflexivity.
  discriminate Hev.
Qed.

Section Tracking.
Context {W : Type} {os : OS W}.

Lemma tracks_ret {A} (a : A) : tracks (ret (W := W) a).
Proof. intros v w. cbn. now rewrite app_nil_r. Qed.

Lemma tracks_raise {A} (e : exn) : tracks (@raise W A e).
Proof. intros v w. cbn. now rewrite app_nil_r. Qed.

Lemma tracks_bind {A B} (m : M W A) (f : A -> M W B) :
  tracks m -> (forall a, tracks (f a)) -> tracks (bind m f).
Proof.
  intros Hm Hf v w. rewrite bind_run. specialize (Hm v w).
  destruct (result (m v w)) as [a|e]; cbn [locals trace]; [|exact Hm].
  rewrite (Hf a), Hm, mkdtemps_app. now rewrite app_assoc.
Qed.

Lemma tracks_try_except {A} (body : M W A) catches handler :
  tracks body -> (forall e, tracks (handler e)) ->
  tracks (try_except body catches handler).
Proof.
  intros Hb Hh v w. rewrite try_except_run. specialize (Hb v w).
  destruct (result (body v w)) as [a|e]; [exact Hb|].
  destruct (catches e); [|exact Hb]. cbn [locals trace].
  rewrite (Hh e), Hb, mkdtemps_app. now rewrite app_assoc.
Qed.

Lemma tracks_for_each {X} (xs : list X) (body : X -> M W unit) :
  (forall x, tracks (body x)) -> tracks (for_each xs body).
Proof.
  intros Hb. induction xs as [|x xs IH]; [apply tracks_ret|].
  rewrite for_each_cons. apply tracks_bind; [apply Hb | intros _; exact IH].
Qed.

End Tracking.

(** One primitive other than [mkdtemp], or an assignment to a variable
    other than [tempdirs]. *)
Ltac tracks_prim :=
  let v := fresh "v" in
  let w := fresh "w" in
  intros v w;
  cbv beta delta
    [print print_no_newline exists_ environ_get environ_set remove rename
       copy2 rmtree check_output popen get modify sys_exit raise ret];
  repeat match goal with
         | |- context [match ?c with (_, _) => _ end] => destruct c
         end;
  cbn [trace locals tempdirs set_symcache_files set_local_symbol_files
       set_found_uncached set_symbol_path set_renames set_rename_errors
       set_error];
  rewrite app_nil_r; reflexivity.

Create HintDb tracks.

Ltac tracks_go :=
  repeat first
    [ solve [auto 1 with tracks nocore]
    | match goal with
      | |- tracks (ret _) => apply tracks_ret
      | |- tracks (raise _) => apply tracks_raise
      | |- tracks (bind _ _) => apply tracks_bind; [| intro]
      | |- tracks (for_each _ _) => apply tracks_for_each; intro
      | |- tracks (try_except _ _ _) => apply tracks_try_except; [| intro]
      | |- tracks (when ?b _) => destruct b; unfold when
      | |- tracks (if ?b then _ else _) => destruct b
      | |- tracks (match ?x with _ => _ end) => destruct x
      | |- tracks (let _ := _ in _) => cbv zeta
      end ];
  try solve [tracks_prim].

Section Created.
Context {W : Type} {os : OS W}.

Lemma copy_step_tracks cfg p c : tracks (copy_step (W := W) cfg p c).
Proof. unfold copy_step, run_copy. tracks_go. Qed.
Hint Resolve copy_step_tracks : tracks.

Lemma copy_pdb_tracks cfg p : tracks (copy_pdb (W := W) cfg p).
Proof.
  intros v w. unfold copy_pdb. rewrite bind_run.
  cbv beta delta [mkdtemp].
  destruct (tempfile_mkdtemp w) as [[d|e] w1]; cbn [result locals world trace of_res];
    [|now rewrite app_nil_r].
  rewrite bind_run. cbn [modify result locals world trace app].
  match goal with
  | |- context [locals (?m ?v1 ?w2)] =>
      assert (T : tracks m) by tracks_go; specialize (T v1 w2);
      destruct (m v1 w2) as [r2 v2 w3 t2]
  end.
  cbn [locals trace tempdirs set_tempdirs] in T.
  cbn [locals trace]. rewrite T.
  change (mkdtemps (Mkdtemp (inl d) :: t2)) with (d :: mkdtemps t2).
  now rewrite <- app_assoc.
Qed.
Hint Resolve copy_pdb_tracks : tracks.

Lemma strip_pdb_tracks cfg p : tracks (strip_pdb (W := W) cfg p).
Proof. unfold strip_pdb. tracks_go. Qed.
Hint Resolve strip_pdb_tracks : tracks.

Lemma process_record_tracks cfg r : tracks (process_record (W := W) cfg r).
Proof. unfold process_record. tracks_go. Qed.
Hint Resolve process_record_tracks : tracks.

Lemma scan_line_tracks cfg line : tracks (scan_line (W := W) cfg line).
Proof. unfold scan_line. tracks_go. Qed.
Hint Resolve scan_line_tracks : tracks.

End Created.

(** A compound program with handlers, for a property of the events alone. *)
Ltac events_go :=
  repeat first
    [ match goal with
      | |- sat _ _ (try_except _ _ _) =>
          apply sat_try_except with (E' := fun _ => True);
          [| intros ? _ _ | intros ? _ _; exact I]
      end
    | progress sat_go ].

Section Deleted.
Context {W : Type} {os : OS W}.

Lemma prepare_creates_nothing sy :
  sat no_mkdtemp (fun _ => True) (prepare (W := W) sy).
Proof. unfold prepare, copy_third_party. sat_go. Qed.

Lemma convert_creates_nothing cfg :
  sat no_mkdtemp (fun _ => True) (convert (W := W) cfg).
Proof.
  unfold convert, hide_build_restore, hide_and_build, restore, rename_back,
    verify, check_generated, cleanup, hide.
  events_go.
Qed.

(** Lines 116-224: after the scan [tempdirs] holds the directories it
    created. *)
Lemma scan_created cfg (v : vars) (w : W) :
  tempdirs (locals (scan cfg v w)) = mkdtemps (trace (scan cfg v w)).
Proof.
  unfold scan. rewrite bind_run. cbn [modify result locals world trace app].
  match goal with
  | |- context [locals (?m ?v1 ?w2)] =>
      assert (T : tracks m) by (tracks_go; apply scan_line_tracks);
      specialize (T v1 w2); destruct (m v1 w2) as [r2 v2 w3 t2]
  end.
  exact T.
Qed.

Lemma calls_nil_creates_nothing (tr : list event) :
  calls tr = [] -> mkdtemps tr = [].
Proof.
  induction tr as [|ev tr IH]; [reflexivity|].
  rewrite calls_cons. destruct ev; cbn [is_call]; try discriminate; exact IH.
Qed.

(** X5.  Whatever [main] deletes, it created: either no directory is
    deleted, or [main] returns and the directories handed to
    [shutil.rmtree] are exactly those [tempfile.mkdtemp] returned during
    this run, each once and in the order of creation. *)
Theorem only_directories_of_this_run_are_deleted
        (sy : sys) (v : vars) (w : W) :
  let o := main sy v w in
  rmtrees (trace o) = []
  \/ (result o = inl tt /\ rmtrees (trace o) = mkdtemps (trace o)).
Proof.
  cbv zeta. unfold main. rewrite bind_run.
  destruct (prepare_sat sy v w) as [P1 _].
  destruct (prepare_creates_nothing sy v w) as [N1 _].
  apply scan_events_quiet in P1. destruct P1 as (_ & _ & _ & D1 & _).
  apply no_mkdtemp_quiet in N1.
  destruct (prepare sy v w) as [[cfg|e] v1 w1 t1];
    cbn [result locals world trace] in *; [|now left].
  rewrite bind_run.
  destruct (scan_sat cfg v1 w1) as [P2 _].
  pose proof (scan_created cfg v1 w1) as T2.
  apply scan_events_quiet in P2. destruct P2 as (_ & _ & _ & D2 & _).
  destruct (scan cfg v1 w1) as [[[]|e] v2 w2 t2];
    cbn [result locals world trace] in *;
    [|left; trace_norm; now rewrite D1, D2].
  rewrite !rmtrees_app, !mkdtemps_app, D1, D2, N1. cbn [app].
  destruct (finish_run cfg v2 w2) as [[_ F] | (_ & R & C)].
  - rewrite F. destruct (convert_creates_nothing cfg v2 w2) as [N3 _].
    apply no_mkdtemp_quiet in N3. rewrite N3, app_nil_r.
    destruct (convert_run cfg v2 w2) as (R & _ & _ & _ & _ & _ & _ & K & Z & _).
    cbv zeta in R, K, Z. rewrite R.
    destruct (result (hide_build_restore cfg v2 w2)) as [[]|e] eqn:R1.
    + destruct (K eq_refl) as [K1 _]. rewrite K1, T2.
      destruct (_ || _); [now left | now right].
    + left. apply Z. discriminate.
  - rewrite (calls_nil_creates_nothing _ C), app_nil_r.
    destruct (no_calls_quiet _ C) as (_ & _ & _ & D3 & _). now left.
Qed.

End Deleted.

(** ** What holds when the scan starts *)

Section Prerequisites.
Context {W : Type} {os : OS W}.

(** X6.  Lines 66-116 hand a configuration to the scan only if a trace
    was named on the command line, the symbol path names the Chromium
    symbol server, and pdbcopy.exe and RetrieveSymbols.exe exist once the
    helper files have been copied; the un-fastlink tool is offered only if
    it existed at the start. *)
Theorem scan_starts_only_with_its_tools
        (sy : sys) (v : vars) (w : W) (cfg : config) :
  let o := prepare sy v w in
  result o = inl cfg ->
  args sy <> []
  /\ tracename cfg = hd "" (args sy)
  /\ PyStr.count (path_of (os_environ "_NT_SYMBOL_PATH" w))
                 "chromium-browser-symsrv" <> 0
  /\ os_path_exists (pdbcopy_path cfg) (world o) = true
  /\ os_path_exists (retrieve_path cfg) (world o) = true
  /\ (forall tool, un_fastlink_tool cfg = Some tool ->
                   os_path_exists tool w = true).
Proof.
  run_begin. unfold prepare.
  remember (copy_third_party _) as helpers eqn:Hhelpers.
  destruct (args sy) as [|a rest].
  { cbv beta delta [bind when print sys_exit raise]. cbn -[append].
    subst Q. discriminate. }
  cbv beta delta [bind when print sys_exit raise environ_get modify exists_
    ret].
  repeat (cbn -[append String.eqb PyStr.count os_path_join path_of];
          match goal with
          | |- context [if ?b then _ else _] => destruct b eqn:?
          | |- context [match os_environ ?k ?w with _ => _ end] =>
              destruct (os_environ k w) eqn:?
          | |- context [match helpers ?v ?w with _ => _ end] =>
              destruct (helpers v w) as [[[]|?] ? ? ?]
          end).
  all: subst Q; cbn -[append String.eqb PyStr.count os_path_join path_of];
    try discriminate.
  all: intros [= <-]; cbn [tracename pdbcopy_path retrieve_path
                             un_fastlink_tool];
    repeat match goal with
           | H : negb _ = false |- _ => apply negb_false_iff in H
           | H : Nat.eqb _ _ = false |- _ => apply Nat.eqb_neq in H
           end;
    repeat (split; [solve [assumption | reflexivity | discriminate]|]);
    intros tool T; try discriminate T; now injection T as <-.
Qed.

End Prerequisites.

Lemma scan_starts_witness :
  result (prepare sys0 v0 world_ok) = inl cfg0
  /\ os_path_exists (pdbcopy_path cfg0) (world (prepare sys0 v0 world_ok))
     = true.
Proof.
  assert (R : result (prepare sys0 v0 world_ok) = inl cfg0)
    by (vm_compute; reflexivity).
  split; [exact R|].
  exact (proj1 (proj2 (proj2 (proj2
           (scan_starts_only_with_its_tools sys0 v0 world_ok cfg0 R))))).
Defined.

(** ** What is renamed and what is removed *)

(** An event that renames a file of [L] to its temporary name or back, or
    removes the temporary name of a file of [L]; every event that is not a
    rename or a removal passes. *)
Definition touches_only (L : list string) (ev : event) : Prop :=
  match ev with
  | Rename src dst _ =>
      (In src L /\ dst = src ++ "x") \/ (In dst L /\ src = dst ++ "x")
  | Remove p _ => exists q, In q L /\ p = q ++ "x"
  | _ => True
  end.

(** [local_symbol_files] is [L], and [renames] pairs files of [L] with
    their temporary names. *)
Definition hides_from (L : list string) (v : vars) : Prop :=
  local_symbol_files v = L
  /\ Forall (fun r => In (fst r) L /\ snd r = fst r ++ "x") (renames v).

(** [guarded L m]: started with [hides_from L], [m] keeps it and touches
    only files of [L]. *)
Definition guarded {W A : Type} (L : list string) (m : M W A) : Prop :=
  forall v w,
    hides_from L v ->
    Forall (touches_only L) (trace (m v w))
    /\ hides_from L (locals (m v w)).

Section Guarded.
Context {W : Type} {os : OS W}.
Variable L : list string.

Lemma guarded_ret {A} (a : A) : guarded L (ret (W := W) a).
Proof. intros v w I. cbn. now split. Qed.

Lemma guarded_bind {A B} (m : M W A) (f : A -> M W B) :
  guarded L m -> (forall a, guarded L (f a)) -> guarded L (bind m f).
Proof.
  intros Hm Hf v w I. rewrite bind_run. destruct (Hm v w I) as [T1 I1].
  destruct (result (m v w)) as [a|e]; cbn [locals trace]; [|now split].
  destruct (Hf a _ (world (m v w)) I1) as [T2 I2].
  split; [apply Forall_app; now split | exact I2].
Qed.

Lemma guarded_get {B} (f : vars -> M W B) :
  (forall v, hides_from L v -> guarded L (f v)) -> guarded L (bind get f).
Proof.
  intros Hf v w I. rewrite bind_run. cbn [get result locals world trace app].
  destruct (Hf v I v w I) as [T2 I2]. now split.
Qed.

Lemma guarded_try_except {A} (body : M W A) catches handler :
  guarded L body -> (forall e, guarded L (handler e)) ->
  guarded L (try_except body catches handler).
Proof.
  intros Hb Hh v w I. rewrite try_except_run. destruct (Hb v w I) as [T1 I1].
  destruct (result (body v w)) as [a|e]; [now split|].
  destruct (catches e); [|now split]. cbn [locals trace].
  destruct (Hh e _ (world (body v w)) I1) as [T2 I2].
  split; [apply Forall_app; now split | exact I2].
Qed.

Lemma guarded_for_each {X} (xs : list X) (body : X -> M W unit) :
  (forall x, In x xs -> guarded L (body x)) -> guarded L (for_each xs body).
Proof.
  induction xs as [|x xs IH]; intros Hb; [apply guarded_ret|].
  rewrite for_each_cons. apply guarded_bind; [apply Hb; now left|].
  intros _. apply IH. intros y Hy. apply Hb. now right.
Qed.

End Guarded.

(** One primitive. *)
Ltac guarded_prim :=
  let v := fresh "v" in
  let w := fresh "w" in
  let I := fresh "I" in
  intros v w I;
  cbv beta delta
    [print print_no_newline exists_ environ_get environ_set remove rename
       copy2 rmtree mkdtemp check_output popen get modify sys_exit raise ret];
  repeat match goal with
         | |- context [match ?c with (_, _) => _ end] => destruct c
         end;
  cbn [trace locals];
  split;
  [ repeat first [apply Forall_nil | apply Forall_cons];
    cbn [touches_only]; eauto
  | destruct I as [? ?]; split;
    cbn [local_symbol_files renames set_symcache_files set_tempdirs
         set_found_uncached set_symbol_path set_renames set_rename_errors
         set_error];
    try assumption ].

Ltac guarded_go :=
  repeat match goal with
         | |- guarded _ (ret _) => apply guarded_ret
         | |- guarded _ (bind get _) => apply guarded_get; intros ? ?
         | |- guarded _ (bind _ _) => apply guarded_bind; [| intro]
         | |- guarded _ (for_each _ _) => apply guarded_for_each; intros ? ?
         | |- guarded _ (try_except _ _ _) =>
             apply guarded_try_except; [| intro]
         | |- guarded _ (when ?b _) => destruct b; unfold when
         | |- guarded _ (if ?b then _ else _) => destruct b
         | |- guarded _ (let _ := _ in _) => cbv zeta
         end;
  try solve [guarded_prim].

Section Touched.
Context {W : Type} {os : OS W}.

Lemma hide_guarded L (local_pdb : string) :
  In local_pdb L -> guarded L (hide (W := W) local_pdb).
Proof.
  intros Hin. unfold hide. guarded_go.
  guarded_prim. apply Forall_app. split; [assumption|].
  repeat constructor. exact Hin.
Qed.

Lemma hide_and_build_guarded L cfg :
  guarded L (hide_and_build (W := W) cfg).
Proof.
  unfold hide_and_build. guarded_go.
  match goal with
  | H : hides_from _ ?v, Hin : In _ (local_symbol_files ?v) |- _ =>
      destruct H as [H _]; rewrite H in Hin
  end.
  now apply hide_guarded.
Qed.

Lemma restore_guarded L : guarded L (restore (W := W)).
Proof.
  unfold restore, rename_back. guarded_go.
  match goal with
  | H : hides_from _ ?v, Hin : In ?x (renames ?v) |- _ =>
      destruct H as [_ H]; rewrite Forall_forall in H;
      destruct (H x Hin) as [H1 H2]
  end.
  guarded_prim.
Qed.

Lemma verify_guarded L : guarded L (verify (W := W)).
Proof. unfold verify, check_generated. guarded_go. Qed.

End Touched.

Section TouchedByMain.
Context {W : Type} {os : OS W}.

Lemma cleanup_guarded L : guarded L (cleanup (W := W)).
Proof. unfold cleanup. guarded_go. Qed.

(** Lines 227-285 touch only the files of [local_symbol_files], whatever
    [renames] held before, and leave [local_symbol_files] as it is. *)
Lemma convert_touches cfg (v : vars) (w : W) :
  Forall (touches_only (local_symbol_files v)) (trace (convert cfg v w))
  /\ local_symbol_files (locals (convert cfg v w)) = local_symbol_files v.
Proof.
  unfold convert, hide_build_restore.
  cbv beta delta [bind get modify print environ_set].
  cbn -[append hide_and_build restore verify cleanup PyStr.join].
  set (L := local_symbol_files v).
  match goal with
  | |- context [hide_and_build cfg ?v1 ?w1] =>
      assert (I : hides_from L v1) by (split; [reflexivity | constructor]);
      destruct (hide_and_build_guarded L cfg v1 w1 I) as [T1 I1];
      destruct (hide_and_build cfg v1 w1) as [[[]|e1] v2 w2 t1]
  end; cbn [result locals world trace] in *;
    [|split; [repeat constructor; exact T1 | exact (proj1 I1)]].
  destruct (restore_guarded L v2 w2 I1) as [T2 I2].
  destruct (restore v2 w2) as [[[]|e2] v3 w3 t2];
    cbn [result locals world trace] in *;
    [|split; [repeat constructor; apply Forall_app; now split
             | exact (proj1 I2)]].
  destruct (verify_guarded L v3 w3 I2) as [T3 I3].
  destruct (verify v3 w3) as [[[]|e3] v4 w4 t3];
    cbn [result locals world trace] in *;
    [|split; [repeat constructor; repeat (apply Forall_app; split); assumption
             | exact (proj1 I3)]].
  destruct (cleanup_guarded L v4 w4 I3) as [T4 I4].
  destruct (cleanup v4 w4) as [r4 v5 w5 t4].
  cbn [result locals world trace] in *.
  split; [|exact (proj1 I4)].
  repeat constructor; repeat (apply Forall_app; split); assumption.
Qed.

(** X7.  The only files [main] renames or removes are the locally built
    PDBs it recorded and their temporary names: every rename takes a file
    of [local_symbol_files] to its name with an [x] appended or back, and
    every removal is of such a temporary name. *)
Theorem only_local_pdbs_are_renamed_or_removed
        (sy : sys) (v : vars) (w : W) :
  let o := main sy v w in
  let L := local_symbol_files (locals o) in
  (forall src dst r,
      In (Rename src dst r) (trace o) ->
      (In src L /\ dst = src ++ "x") \/ (In dst L /\ src = dst ++ "x"))
  /\ (forall p r,
         In (Remove p r) (trace o) -> exists q, In q L /\ p = q ++ "x").
Proof.
  cbv zeta.
  destruct (main_run sy v w) as [(e & _ & _ & S) | (cfg & v1 & w1 & t & S & T & _ & V & _)];
    cbv zeta in *.
  - destruct (scan_events_quiet _ S) as (_ & _ & _ & _ & N1 & N2).
    split; [intros src dst r Hin; now destruct (N1 src dst r)
           | intros p r Hin; now destruct (N2 p r)].
  - destruct (scan_events_quiet _ S) as (_ & _ & _ & _ & N1 & N2).
    rewrite T, V.
    destruct (finish_run cfg v1 w1) as [[_ F] | (_ & _ & C)].
    + rewrite F. destruct (convert_touches cfg v1 w1) as [H ->].
      rewrite Forall_forall in H.
      split.
      * intros src dst r Hin. apply in_app_or in Hin.
        destruct Hin as [Hin | Hin]; [now destruct (N1 src dst r)|].
        exact (H _ Hin).
      * intros p r Hin. apply in_app_or in Hin.
        destruct Hin as [Hin | Hin]; [now destruct (N2 p r)|].
        exact (H _ Hin).
    + split.
      * intros src dst r Hin. apply in_app_or in Hin.
        destruct Hin as [Hin | Hin]; [now destruct (N1 src dst r)|].
        apply In_calls in Hin; [|reflexivity]. rewrite C in Hin.
        destruct Hin.
      * intros p r Hin. apply in_app_or in Hin.
        destruct Hin as [Hin | Hin]; [now destruct (N2 p r)|].
        apply In_calls in Hin; [|reflexivity]. rewrite C in Hin.
        destruct Hin.
Qed.

End TouchedByMain.

(** ** The symbol path handed to xperf *)

(** An event other than an assignment to the environment. *)
Definition no_environ (ev : event) : bool :=
  match ev with SetEnviron _ _ => false | _ => true end.

Lemma no_environ_quiet (tr : list event) :
  Forall (fun ev => no_environ ev = true) tr -> environ_sets tr = [].
Proof.
  induction 1 as [|ev tr Hev _ IH]; [reflexivity|].
  change (environ_sets (ev :: tr)) with (environ_of ev ++ environ_sets tr)%list.
  rewrite IH. destruct ev; try reflexivity. discriminate Hev.
Qed.

Lemma scan_events_keep_environ (tr : list event) :
  Forall (fun ev => scan_event ev = true) tr -> environ_sets tr = [].
Proof.
  intros H. apply no_environ_quiet. revert H. apply Forall_impl.
  intros ev Hev. destruct ev; try reflexivity. discriminate Hev.
Qed.

Lemma calls_nil_keep_environ (tr : list event) :
  calls tr = [] -> environ_sets tr = [].
Proof.
  induction tr as [|ev tr IH]; [reflexivity|].
  rewrite calls_cons. destruct ev; cbn [is_call]; try discriminate; exact IH.
Qed.

Section SymbolPath.
Context {W : Type} {os : OS W}.

Lemma hide_and_build_keeps_environ cfg :
  sat no_environ (fun _ => True) (hide_and_build (W := W) cfg).
Proof. unfold hide_and_build, hide. events_go. Qed.

Lemma restore_keeps_environ :
  sat no_environ (fun _ => True) (restore (W := W)).
Proof. unfold restore, rename_back. events_go. Qed.

Lemma verify_keeps_environ :
  sat no_environ (fun _ => True) (verify (W := W)).
Proof. unfold verify, check_generated. events_go. Qed.

Lemma cleanup_keeps_environ :
  sat no_environ (fun _ => True) (cleanup (W := W)).
Proof. unfold cleanup. events_go. Qed.

(** Lines 227-285 assign to the environment once, at line 229. *)
Lemma convert_environ cfg (v : vars) (w : W) :
  environ_sets (trace (convert cfg v w))
  = [("_NT_SYMBOL_PATH", PyStr.join ";" (tempdirs v))].
Proof.
  unfold convert, hide_build_restore.
  cbv beta delta [bind get modify print environ_set].
  cbn -[append hide_and_build restore verify cleanup PyStr.join].
  match goal with
  | |- context [hide_and_build cfg ?v1 ?w1] =>
      destruct (hide_and_build_keeps_environ cfg v1 w1) as [T1 _];
      destruct (hide_and_build cfg v1 w1) as [[[]|e1] v2 w2 t1]
  end; cbn [result locals world trace] in *;
    apply no_environ_quiet in T1.
  2: { change (?a :: ?b :: t1) with ([a; b] ++ t1)%list.
       now rewrite environ_sets_app, T1. }
  destruct (restore_keeps_environ v2 w2) as [T2 _].
  destruct (restore v2 w2) as [[[]|e2] v3 w3 t2];
    cbn [result locals world trace] in *; apply no_environ_quiet in T2.
  2: { change (?a :: ?b :: ?t) with ([a; b] ++ t)%list.
       now rewrite !environ_sets_app, T1, T2. }
  destruct (verify_keeps_environ v3 w3) as [T3 _].
  destruct (verify v3 w3) as [[[]|e3] v4 w4 t3];
    cbn [result locals world trace] in *; apply no_environ_quiet in T3.
  2: { change (?a :: ?b :: ?t) with ([a; b] ++ t)%list.
       now rewrite !environ_sets_app, T1, T2, T3. }
  destruct (cleanup_keeps_environ v4 w4) as [T4 _].
  destruct (cleanup v4 w4) as [r4 v5 w5 t4].
  cbn [result locals world trace] in *. apply no_environ_quiet in T4.
  change (?a :: ?b :: ?t) with ([a; b] ++ t)%list.
  now rewrite !environ_sets_app, T1, T2, T3, T4.
Qed.


End SymbolPath.

(** ** What the signature pattern captures *)

Lemma strip_prefix_sound (p s rest : string) :
  strip_prefix p s = Some rest -> s = p ++ rest.
Proof.
  revert s. induction p as [|a p IH]; intros s H; cbn in H.
  - now injection H as <-.
  - destruct s as [|b s]; [discriminate|].
    destruct (Ascii.eqb a b) eqn:E; [|discriminate].
    apply Ascii.eqb_eq in E. subst b. cbn. f_equal. now apply IH.
Qed.

(** A literal consumes itself. *)
Lemma re_match_lit (l : string) (rest : list re_item) (s : string)
      (pos : nat) (marks r : list nat) :
  re_match (Lit l :: rest) s pos marks = Some r ->
  exists s', s = l ++ s'
             /\ re_match rest s' (pos + String.length l) marks = Some r.
Proof.
  cbn [re_match]. destruct (strip_prefix l s) as [s'|] eqn:E; [|discriminate].
  intros H. exists s'. split; [now apply strip_prefix_sound | exact H].
Qed.

(** [.*] consumes some prefix of the subject. *)
Lemma re_match_star (rest : list re_item) (s : string) (pos : nat)
      (marks r : list nat) :
  re_match (DotStar :: rest) s pos marks = Some r ->
  exists t s', s = t ++ s'
               /\ re_match rest s' (pos + String.length t) marks = Some r.
Proof.
  cbn [re_match]. revert pos. induction s as [|c s IH]; intros pos H.
  - exists "", "". split; [reflexivity|]. cbn. now rewrite Nat.add_0_r.
  - destruct (Ascii.eqb c PyStr.LF).
    + exists "", (String c s). split; [reflexivity|]. cbn.
      now rewrite Nat.add_0_r.
    + match type of H with
      | match ?x with _ => _ end = _ => destruct x as [r'|] eqn:E
      end.
      * injection H as ->. apply IH in E.
        destruct E as (t & s' & -> & E). exists (String c t), s'.
        split; [reflexivity|]. cbn [String.length].
        now rewrite Nat.add_succ_r.
      * exists "", (String c s). split; [reflexivity|]. cbn.
        now rewrite Nat.add_0_r.
Qed.

Lemma re_match_open (rest : list re_item) (s : string) (pos : nat)
      (marks : list nat) :
  re_match (GroupOpen :: rest) s pos marks = re_match rest s pos (pos :: marks).
Proof. reflexivity. Qed.

Lemma re_match_close (rest : list re_item) (s : string) (pos : nat)
      (marks : list nat) :
  re_match (GroupClose :: rest) s pos marks
  = re_match rest s pos (pos :: marks).
Proof. reflexivity. Qed.

Lemma append_assoc (a b c : string) : (a ++ b) ++ c = a ++ b ++ c.
Proof. induction a as [|x a IH]; cbn; [reflexivity | now rewrite IH]. Qed.

Lemma substring_head (mid post : string) :
  substring 0 (String.length mid) (mid ++ post) = mid.
Proof.
  induction mid as [|c mid IH]; cbn.
  - now destruct post.
  - now rewrite IH.
Qed.

(** The slice between two marks is what was consumed between them. *)
Lemma slice_between (line pre mid post : string) (from to : nat) :
  line = pre ++ mid ++ post ->
  from = String.length pre ->
  to = from + String.length mid ->
  slice line from to = mid.
Proof.
  intros -> -> ->. unfold slice.
  replace (String.length pre + String.length mid - String.length pre)
    with (String.length mid) by lia.
  induction pre as [|c pre IH]; cbn; [apply substring_head | exact IH].
Qed.

Ltac str_len :=
  repeat first [ rewrite append_length
               | progress cbn [append String.length] ];
  lia.

(** What [pdb_re] captures: the three groups are the text between the
    literals of the pattern, and the first holds four hyphens. *)
Lemma pdb_re_match_sound (line guid age path : string) :
  pdb_re_match line = Some (guid, age, path) ->
  exists g1 g2 g3 g4 g5 rest,
    guid = g1 ++ "-" ++ g2 ++ "-" ++ g3 ++ "-" ++ g4 ++ "-" ++ g5
    /\ line = String PyStr.dquote "[RSDS] PdbSig: {" ++ guid ++ "}; Age: "
                ++ age ++ "; Pdb: " ++ path ++ String PyStr.dquote rest.
Proof.
  unfold pdb_re_match, pdb_re.
  destruct (re_match _ line 0 []) as [r|] eqn:M; [|discriminate].
  apply re_match_lit in M. destruct M as (s0 & E0 & M).
  rewrite re_match_open in M.
  apply re_match_star in M. destruct M as (g1 & s1 & E1 & M).
  apply re_match_lit in M. destruct M as (s2 & E2 & M).
  apply re_match_star in M. destruct M as (g2 & s3 & E3 & M).
  apply re_match_lit in M. destruct M as (s4 & E4 & M).
  apply re_match_star in M. destruct M as (g3 & s5 & E5 & M).
  apply re_match_lit in M. destruct M as (s6 & E6 & M).
  apply re_match_star in M. destruct M as (g4 & s7 & E7 & M).
  apply re_match_lit in M. destruct M as (s8 & E8 & M).
  apply re_match_star in M. destruct M as (g5 & s9 & E9 & M).
  rewrite re_match_close in M.
  apply re_match_lit in M. destruct M as (s10 & E10 & M).
  rewrite re_match_open in M.
  apply re_match_star in M. destruct M as (a & s11 & E11 & M).
  rewrite re_match_close in M.
  apply re_match_lit in M. destruct M as (s12 & E12 & M).
  rewrite re_match_open in M.
  apply re_match_star in M. destruct M as (p & s13 & E13 & M).
  rewrite re_match_close in M.
  apply re_match_lit in M. destruct M as (rest & E14 & M).
  cbn [re_match rev app] in M. injection M as <-.
  intros [= G A P].
  subst s13 s12 s11 s10 s9 s8 s7 s6 s5 s4 s3 s2 s1 s0.
  exists g1, g2, g3, g4, g5, rest.
  assert (HG : guid = g1 ++ "-" ++ g2 ++ "-" ++ g3 ++ "-" ++ g4 ++ "-" ++ g5).
  { rewrite <- G.
    apply slice_between
      with (pre := String PyStr.dquote "[RSDS] PdbSig: {")
           (post := "}; Age: " ++ a ++ "; Pdb: " ++ p
                      ++ String PyStr.dquote "" ++ rest).
    - rewrite E0, !append_assoc. reflexivity.
    - reflexivity.
    - str_len. }
  assert (HA : age = a).
  { rewrite <- A.
    apply slice_between
      with (pre := String PyStr.dquote "[RSDS] PdbSig: {" ++ g1 ++ "-" ++ g2
                     ++ "-" ++ g3 ++ "-" ++ g4 ++ "-" ++ g5 ++ "}; Age: ")
           (post := "; Pdb: " ++ p ++ String PyStr.dquote "" ++ rest).
    - rewrite E0, !append_assoc. reflexivity.
    - str_len.
    - str_len. }
  assert (HP : path = p).
  { rewrite <- P.
    apply slice_between
      with (pre := String PyStr.dquote "[RSDS] PdbSig: {" ++ g1 ++ "-" ++ g2
                     ++ "-" ++ g3 ++ "-" ++ g4 ++ "-" ++ g5 ++ "}; Age: "
                     ++ a ++ "; Pdb: ")
           (post := String PyStr.dquote "" ++ rest).
    - rewrite E0, !append_assoc. reflexivity.
    - str_len.
    - str_len. }
  split; [exact HG|]. rewrite E0, HG, HA, HP, !append_assoc. reflexivity.
Qed.

(** X9.  The record the scanner makes of a line is read off the line: the
    line starts with a double quote, [[RSDS] PdbSig: {], a GUID that holds
    four hyphens, [}; Age: ], an age, [; Pdb: ], a path and a double
    quote; the record holds the module the line names, the GUID without
    its hyphens, the number the age denotes in base ten, and the path. *)
Theorem record_fields_are_the_fields_of_the_line
        (line : string) (r : SymbolRecord) :
  parse_line line = inl (Some r) ->
  exists g1 g2 g3 g4 g5 age rest,
    let guid := g1 ++ "-" ++ g2 ++ "-" ++ g3 ++ "-" ++ g4 ++ "-" ++ g5 in
    line = String PyStr.dquote "[RSDS] PdbSig: {" ++ guid ++ "}; Age: "
             ++ age ++ "; Pdb: " ++ rec_path r ++ String PyStr.dquote rest
    /\ dll_match line = Some (rec_dll r)
    /\ rec_guid r = without_hyphens guid
    /\ PyStr.int_of_str age = Some (rec_age r).
Proof.
  unfold parse_line.
  destruct (dll_match line) as [d|]; [|discriminate].
  destruct (pdb_re_match line) as [[[guid age] path]|] eqn:M; [|discriminate].
  destruct (PyStr.int_of_str age) as [n|] eqn:A; [|discriminate].
  intros [= <-]. cbn [rec_dll rec_guid rec_age rec_path].
  apply pdb_re_match_sound in M.
  destruct M as (g1 & g2 & g3 & g4 & g5 & rest & G & E).
  exists g1, g2, g3, g4, g5, age, rest. cbv zeta. rewrite <- G.
  split; [exact E|]. split; [reflexivity|].
  split; [apply replace_hyphens | exact A].
Qed.

Lemma record_fields_witness :
  parse_line local_line
  = inl (Some (mkSymbolRecord "chrome.dll" "0e7712beaf064421884b496f833c8ec1"
                              33 local_pdb0))
  /\ exists g1 g2 g3 g4 g5 age rest,
       local_line
       = String PyStr.dquote "[RSDS] PdbSig: {"
           ++ (g1 ++ "-" ++ g2 ++ "-" ++ g3 ++ "-" ++ g4 ++ "-" ++ g5)
           ++ "}; Age: " ++ age ++ "; Pdb: " ++ local_pdb0
           ++ String PyStr.dquote rest.
Proof.
  assert (P : parse_line local_line
              = inl (Some (mkSymbolRecord "chrome.dll"
                             "0e7712beaf064421884b496f833c8ec1" 33 local_pdb0)))
    by (vm_compute; reflexivity).
  split; [exact P|].
  destruct (record_fields_are_the_fields_of_the_line local_line _ P)
    as (g1 & g2 & g3 & g4 & g5 & age & rest & E & _).
  exists g1, g2, g3, g4, g5, age, rest. exact E.
Defined.

(** ** One symcache file for one signature *)

(** No character of the string is a hyphen. *)
Fixpoint hyphen_free (s : string) : bool :=
  match s with
  | EmptyString => true
  | String c s' => negb (Ascii.eqb c "-") && hyphen_free s'
  end.

Lemma split_at_first_hyphen (d d' x x' : string) :
  hyphen_free d = true -> hyphen_free d' = true ->
  d ++ String "-" x = d' ++ String "-" x' -> d = d' /\ x = x'.
Proof.
  revert d'. induction d as [|c d IH]; intros [|c' d'] F F' E;
    cbn [append hyphen_free] in *.
  - now injection E as <-.
  - injection E as <- _. discriminate F'.
  - injection E as -> _. discriminate F.
  - injection E as <- E. apply andb_true_iff in F, F'.
    destruct (IH d' (proj2 F) (proj2 F') E) as [<- <-]. now split.
Qed.

Lemma split_at_length (a b x y : string) :
  String.length a = String.length b -> a ++ x = b ++ y -> a = b /\ x = y.
Proof.
  revert b. induction a as [|c a IH]; intros [|c' b] N E;
    cbn [append String.length] in *; try discriminate N.
  - now split.
  - injection E as <- E. injection N as N.
    destruct (IH b N E) as [<- <-]. now split.
Qed.

Lemma append_inv_tail (x y s : string) : x ++ s = y ++ s -> x = y.
Proof.
  intros E. apply (split_at_length x y s s); [|exact E].
  apply (f_equal String.length) in E. rewrite !append_length in E. lia.
Qed.

Lemma dll_names_hyphen_free (d : string) :
  In d dll_names -> hyphen_free d = true.
Proof.
  intros H.
  assert (F : Forall (fun n => hyphen_free n = true) dll_names)
    by (repeat constructor).
  rewrite Forall_forall in F. now apply F.
Qed.

(** X10.  Line 166 gives different signatures different symcache files:
    for listed modules, GUIDs of one length and ages that are not
    negative, equal file names mean the same module, GUID and age. *)
Theorem symcache_file_names_do_not_collide
        (dllMatch guid : string) (age : Z)
        (dllMatch' guid' : string) (age' : Z) :
  In dllMatch dll_names -> In dllMatch' dll_names ->
  String.length guid = String.length guid' ->
  (0 <= age)%Z -> (0 <= age')%Z ->
  symcache_file dllMatch guid age = symcache_file dllMatch' guid' age' ->
  dllMatch = dllMatch' /\ guid = guid' /\ age = age'.
Proof.
  intros D D' N A A' E. unfold symcache_file in E.
  apply (split_at_length "c:\symcache\" "c:\symcache\") in E;
    [|reflexivity].
  destruct E as [_ E].
  apply split_at_first_hyphen in E; try now apply dll_names_hyphen_free.
  destruct E as [-> E]. apply split_at_length in E; [|exact N].
  destruct E as [-> E]. apply append_inv_tail in E.
  apply (f_equal hex_value) in E.
  rewrite !hex_value_of_int in E by assumption.
  injection E as ->. repeat split.
Qed.

Lemma symcache_file_names_witness :
  symcache_file "chrome.dll" "0e7712beaf064421884b496f833c8ec1" 33
  = local_cache
  /\ "chrome.dll" = "chrome.dll".
Proof.
  assert (E : symcache_file "chrome.dll" "0e7712beaf064421884b496f833c8ec1" 33
              = local_cache) by (vm_compute; reflexivity).
  split; [exact E|].
  refine (proj1 (symcache_file_names_do_not_collide
                   "chrome.dll" "0e7712beaf064421884b496f833c8ec1" 33
                   "chrome.dll" "0e7712beaf064421884b496f833c8ec1" 33
                   _ _ eq_refl _ _ eq_refl)).
  - right. now left.
  - right. now left.
  - lia.
  - lia.
Defined.

(** ** The age in decimal *)

(** No character of the string is one that [strip] removes. *)
Fixpoint space_free (s : string) : bool :=
  match s with
  | EmptyString => true
  | String c s' => negb (PyStr.is_space c) && space_free s'
  end.

Lemma rstrip_space_free (s : string) :
  space_free s = true -> PyStr.rstrip s = s.
Proof.
  induction s as [|c s IH]; [reflexivity|]. cbn [space_free PyStr.rstrip].
  intros H. apply andb_true_iff in H. destruct H as [C S].
  apply negb_true_iff in C. now rewrite C, (IH S).
Qed.

Lemma strip_space_free (s : string) :
  space_free s = true -> PyStr.strip s = s.
Proof.
  intros H. unfold PyStr.strip.
  assert (L : PyStr.lstrip s = s).
  { destruct s as [|c s]; [reflexivity|]. cbn [space_free] in H.
    apply andb_true_iff in H. destruct H as [C _].
    apply negb_true_iff in C. cbn [PyStr.lstrip]. now rewrite C. }
  rewrite L. now apply rstrip_space_free.
Qed.

Lemma string_of_uint_space_free (d : Decimal.uint) :
  space_free (DecimalString.NilEmpty.string_of_uint d) = true.
Proof. induction d; cbn; auto. Qed.

Lemma digits_value_of_uint (d : Decimal.uint) :
  d <> Decimal.Nil ->
  PyStr.digits_value (DecimalString.NilEmpty.string_of_uint d)
  = Some (Z.of_uint d).
Proof.
  intros N. unfold PyStr.digits_value.
  rewrite DecimalString.NilEmpty.usu.
  destruct d; [now contradiction N | reflexivity ..].
Qed.

(** A string of digits is read as it stands: it starts with no sign. *)
Lemma int_of_digits (d : Decimal.uint) :
  d <> Decimal.Nil ->
  PyStr.int_of_str (DecimalString.NilEmpty.string_of_uint d)
  = Some (Z.of_uint d).
Proof.
  intros N. unfold PyStr.int_of_str.
  rewrite (strip_space_free _ (string_of_uint_space_free d)).
  rewrite <- (digits_value_of_uint d N).
  destruct d; [now contradiction N | reflexivity ..].
Qed.

(** X11.  The decimal text the script writes for an age, on the command
    line of RetrieveSymbols and in its messages, is read back by [int] as
    that age: [int(str(n))] is [n], for negative ages too. *)
Theorem age_in_decimal_reads_back (age : Z) :
  PyStr.int_of_str (PyStr.str_of_int age) = Some age.
Proof.
  unfold PyStr.str_of_int. destruct age as [|p|p]; [reflexivity | |].
  - cbn [Z.to_int DecimalString.NilEmpty.string_of_int].
    rewrite int_of_digits by apply DecimalPos.Unsigned.to_uint_nonnil.
    unfold Z.of_uint. now rewrite DecimalPos.Unsigned.of_to.
  - cbn [Z.to_int DecimalString.NilEmpty.string_of_int].
    unfold PyStr.int_of_str. rewrite strip_space_free.
    + rewrite digits_value_of_uint
        by apply DecimalPos.Unsigned.to_uint_nonnil.
      unfold Z.of_uint. now rewrite DecimalPos.Unsigned.of_to.
    + cbn [space_free]. now rewrite string_of_uint_space_free.
Qed.

(** ** The list that verification checks *)

(** [keeps f m]: [m] leaves the value [f] reads from the variables as it
    is, also when it raises. *)
Definition keeps {W A X : Type} (f : vars -> X) (m : M W A) : Prop :=
  forall v w, f (locals (m v w)) = f v.

Section Keeping.
Context {W : Type} {os : OS W} {X : Type}.
Variable f : vars -> X.

Lemma keeps_ret {A} (a : A) : keeps f (ret (W := W) a).
Proof. intros v w. reflexivity. Qed.

Lemma keeps_bind {A B} (m : M W A) (g : A -> M W B) :
  keeps f m -> (forall a, keeps f (g a)) -> keeps f (bind m g).
Proof.
  intros Hm Hg v w. rewrite bind_run. specialize (Hm v w).
  destruct (result (m v w)) as [a|e]; cbn [locals]; [|exact Hm].
  now rewrite (Hg a).
Qed.

Lemma keeps_try_except {A} (body : M W A) catches handler :
  keeps f body -> (forall e, keeps f (handler e)) ->
  keeps f (try_except body catches handler).
Proof.
  intros Hb Hh v w. rewrite try_except_run. specialize (Hb v w).
  destruct (result (body v w)) as [a|e]; [exact Hb|].
  destruct (catches e); [|exact Hb]. cbn [locals]. now rewrite (Hh e).
Qed.

Lemma keeps_for_each {Y} (ys : list Y) (body : Y -> M W unit) :
  (forall y, keeps f (body y)) -> keeps f (for_each ys body).
Proof.
  intros Hb. induction ys as [|y ys IH]; [apply keeps_ret|].
  rewrite for_each_cons. apply keeps_bind; [apply Hb | intros _; exact IH].
Qed.

End Keeping.

Ltac keeps_prim :=
  let v := fresh "v" in
  let w := fresh "w" in
  intros v w;
  cbv beta delta
    [print print_no_newline exists_ environ_get environ_set remove rename
       copy2 rmtree mkdtemp check_output popen get modify sys_exit raise ret];
  repeat match goal with
         | |- context [match ?c with (_, _) => _ end] => destruct c
         end;
  reflexivity.

Ltac keeps_go :=
  repeat match goal with
         | |- keeps _ (ret _) => apply keeps_ret
         | |- keeps _ (bind _ _) => apply keeps_bind; [| intro]
         | |- keeps _ (for_each _ _) => apply keeps_for_each; intro
         | |- keeps _ (try_except _ _ _) => apply keeps_try_except; [| intro]
         | |- keeps _ (when ?b _) => destruct b; unfold when
         | |- keeps _ (if ?b then _ else _) => destruct b
         | |- keeps _ (match ?x with _ => _ end) => destruct x
         | |- keeps _ (let _ := _ in _) => cbv zeta
         end;
  try solve [keeps_prim].

Section Listed.
Context {W : Type} {os : OS W}.

Lemma strip_pdb_keeps_the_list cfg p :
  keeps (fun v => (symcache_files v, found_uncached v))
        (strip_pdb (W := W) cfg p).
Proof. unfold strip_pdb, copy_pdb, copy_step, run_copy. keeps_go. Qed.

(** X12.  A signature whose symcache file does not exist yet is put on the
    list that lines 272-277 check, and [found_uncached] is set, whatever
    happens to it afterwards: whether its PDB is retrieved, found locally
    or not found, and also when a tool raises.  A signature whose file
    exists changes no variable. *)
Theorem every_uncached_signature_is_listed
        (cfg : config) (r : SymbolRecord) (v : vars) (w : W) :
  let file := symcache_file (rec_dll r) (rec_guid r) (rec_age r) in
  let o := process_record cfg r v w in
  if os_path_exists file w
  then locals o = v
  else symcache_files (locals o) = (symcache_files v ++ [file])%list
       /\ found_uncached (locals o) = true.
Proof.
  cbv zeta. unfold process_record. rewrite bind_run.
  cbn [exists_ result locals world trace].
  destruct (os_path_exists _ w); [reflexivity|].
  rewrite bind_run. cbn [modify result locals world trace].
  rewrite bind_run. cbn [print result locals world trace].
  rewrite bind_run. cbn [modify result locals world trace].
  match goal with
  | |- context [locals (?m ?v1 ?w1)] =>
      assert (K : keeps (fun v => (symcache_files v, found_uncached v)) m)
  end.
  { pose proof strip_pdb_keeps_the_list as S. keeps_go; apply S. }
  match goal with
  | |- context [locals (?m ?v1 ?w1)] =>
      specialize (K v1 w1); destruct (m v1 w1) as [r1 v2 w2 t2]
  end.
  cbn [locals symcache_files found_uncached set_symcache_files
       set_found_uncached] in K.
  injection K as K1 K2. cbn [locals]. now split.
Qed.

End Listed.

(** ** A PDB that cannot be found *)

(** The symbol server has nothing and the local PDB is gone. *)
Definition world_no_pdb : Sim.world := Sim.with_files tools world_ok.

Definition local_record : SymbolRecord :=
  mkSymbolRecord "chrome.dll" "0e7712beaf064421884b496f833c8ec1" 33
                 local_pdb0.

Definition failed_to_retrieve : string := "  Failed to retrieve symbols.".

Section NotFound.
Context {W : Type} {os : OS W}.

(** X13.  A PDB that is neither retrieved nor found at the path the trace
    gives is not an error of the scan: RetrieveSymbols is the only call
    made for the signature, the failure is printed, no directory is
    created, no file is recorded as local, and the loop goes on. *)
Theorem failed_retrieval_is_not_fatal
        (cfg : config) (r : SymbolRecord) (v : vars) (w w1 : W)
        (sublines : list string) :
  let file := symcache_file (rec_dll r) (rec_guid r) (rec_age r) in
  let retrieve_command :=
    RetrieveSymbols (retrieve_path cfg) (rec_guid r) (rec_age r)
                    (snd (os_path_split (rec_path r))) in
  let o := process_record cfg r v w in
  os_path_exists file w = false ->
  os_popen (command_line retrieve_command) w = (inl sublines, w1) ->
  truthy (retrieved_path sublines) = false ->
  os_path_exists (rec_path r) w1 = false ->
  result o = inl tt
  /\ world o = w1
  /\ calls (trace o) = [Popen retrieve_command None]
  /\ In (Print failed_to_retrieve) (trace o)
  /\ tempdirs (locals o) = tempdirs v
  /\ local_symbol_files (locals o) = local_symbol_files v.
Proof.
  cbv zeta. intros C P T L. unfold process_record.
  cbv beta delta [bind exists_ modify print popen ret].
  cbn -[append command_line retrieved_path truthy].
  rewrite C. cbn -[append command_line retrieved_path truthy].
  rewrite P. cbn -[append command_line retrieved_path truthy].
  rewrite T. cbn -[append command_line retrieved_path truthy].
  rewrite L. cbn -[append command_line retrieved_path truthy].
  rewrite T. cbn -[append command_line retrieved_path truthy].
  trace_norm. repeat split; try reflexivity.
  do 3 right. now left.
Qed.

End NotFound.

Lemma failed_retrieval_witness :
  os_path_exists local_cache world_no_pdb = false
  /\ result (process_record cfg0 local_record v0 world_no_pdb) = inl tt.
Proof.
  assert (C : os_path_exists
                (symcache_file (rec_dll local_record) (rec_guid local_record)
                               (rec_age local_record)) world_no_pdb = false)
    by (vm_compute; reflexivity).
  assert (P : os_popen
                (command_line
                   (RetrieveSymbols (retrieve_path cfg0)
                      (rec_guid local_record) (rec_age local_record)
                      (snd (os_path_split (rec_path local_record)))))
                world_no_pdb
              = (inl [], world_no_pdb))
    by (vm_compute; reflexivity).
  assert (L : os_path_exists (rec_path local_record) world_no_pdb = false)
    by (vm_compute; reflexivity).
  split; [vm_compute; reflexivity|].
  exact (proj1 (failed_retrieval_is_not_fatal
                  cfg0 local_record v0 world_no_pdb world_no_pdb []
                  C P eq_refl L)).
Defined.

(** ** The path RetrieveSymbols reports *)

Lemma pdb_cached_re_match_sound (subline path : string) :
  pdb_cached_re_match subline = Some path ->
  exists t rest,
    subline = "Found " ++ t ++ "file - placed it in " ++ path ++ rest.
Proof.
  unfold pdb_cached_re_match, pdb_cached_re.
  destruct (re_match _ subline 0 []) as [r|] eqn:M; [|discriminate].
  apply re_match_lit in M. destruct M as (s0 & E0 & M).
  apply re_match_star in M. destruct M as (t & s1 & E1 & M).
  apply re_match_lit in M. destruct M as (s2 & E2 & M).
  rewrite re_match_open in M.
  apply re_match_star in M. destruct M as (p & rest & E3 & M).
  rewrite re_match_close in M.
  cbn [re_match rev app] in M. injection M as <-.
  intros [= P]. subst s2 s1 s0. exists t, rest.
  assert (HP : path = p).
  { rewrite <- P.
    apply slice_between
      with (pre := "Found " ++ t ++ "file - placed it in ") (post := rest).
    - rewrite E0, !append_assoc. reflexivity.
    - str_len.
    - str_len. }
  now rewrite E0, HP.
Qed.

Lemma drop_last_period (p : string) :
  PyStr.endswith_char p "." = true -> p = PyStr.drop_last p ++ ".".
Proof.
  induction p as [|c p IH]; [discriminate|].
  destruct p as [|c' p].
  - cbn. intros E. apply Ascii.eqb_eq in E. now subst c.
  - intros E.
    change (PyStr.endswith_char (String c' p) "." = true) in E.
    change (String c (String c' p)
            = String c (PyStr.drop_last (String c' p) ++ ".")).
    f_equal. exact (IH E).
Qed.



(** ** A helper file that cannot be copied *)

(** [fails_fast m]: a failed [shutil.copy2] is the last thing [m] does, and
    its exception is the one that leaves [m]. *)
Definition fails_fast {W A : Type} (m : M W A) : Prop :=
  forall v w src dst e,
    In (Copy2 src dst (Some e)) (trace (m v w)) ->
    result (m v w) = inr (Env e).

(** What lines 66-116 do: they print and they copy. *)
Definition prepare_event (ev : event) : bool :=
  match ev with Print _ | Copy2 _ _ _ => true | _ => false end.

(** An event other than a copy. *)
Definition no_copy (ev : event) : bool :=
  match ev with Copy2 _ _ _ => false | _ => true end.

Lemma prepare_events_quiet (tr : list event) :
  Forall (fun ev => prepare_event ev = true) tr ->
  check_outputs tr = [] /\ mkdtemps tr = [] /\ builds tr = []
  /\ environ_sets tr = [].
Proof.
  induction 1 as [|ev tr Hev _ (A & B & C & D)]; [now repeat split|].
  change (check_outputs (ev :: tr))
    with (check_output_of ev ++ check_outputs tr)%list.
  change (mkdtemps (ev :: tr)) with (mkdtemp_of ev ++ mkdtemps tr)%list.
  change (environ_sets (ev :: tr)) with (environ_of ev ++ environ_sets tr)%list.
  rewrite builds_cons, A, B, C, D.
  destruct ev; try discriminate Hev; now repeat split.
Qed.

Lemma no_copy_quiet (tr : list event) (src dst : string)
      (r : option env_exn) :
  Forall (fun ev => no_copy ev = true) tr -> ~ In (Copy2 src dst r) tr.
Proof.
  intros F Hin. rewrite Forall_forall in F. now apply F in Hin.
Qed.

Section FailingFast.
Context {W : Type} {os : OS W}.

Lemma fails_fast_ret {A} (a : A) : fails_fast (ret (W := W) a).
Proof. intros v w src dst e []. Qed.

Lemma fails_fast_bind {A B} (m : M W A) (f : A -> M W B) :
  fails_fast m -> (forall a, fails_fast (f a)) -> fails_fast (bind m f).
Proof.
  intros Hm Hf v w src dst e. rewrite bind_run. specialize (Hm v w src dst e).
  destruct (result (m v w)) as [a|e0]; cbn [result trace].
  - intros Hin. apply in_app_or in Hin. destruct Hin as [Hin | Hin].
    + discriminate (Hm Hin).
    + exact (Hf a _ _ _ _ _ Hin).
  - intros Hin. now injection (Hm Hin) as ->.
Qed.

Lemma fails_fast_for_each {X} (xs : list X) (body : X -> M W unit) :
  (forall x, fails_fast (body x)) -> fails_fast (for_each xs body).
Proof.
  intros Hb. induction xs as [|x xs IH]; [apply fails_fast_ret|].
  rewrite for_each_cons.
  apply fails_fast_bind; [apply Hb | intros _; exact IH].
Qed.

End FailingFast.

Ltac fails_fast_prim :=
  let v := fresh "v" in
  let w := fresh "w" in
  let H := fresh "H" in
  intros v w ? ? ? H;
  cbv beta delta
    [print exists_ environ_get copy2 get modify sys_exit raise ret] in *;
  repeat match goal with
         | H : context [match ?c with (_, _) => _ end] |- _ => destruct c
         end;
  cbn [trace result In] in *;
  repeat match goal with
         | H : _ \/ _ |- _ => destruct H as [H | H]
         | H : False |- _ => destruct H
         end;
  try discriminate;
  match goal with
  | H : Copy2 _ _ ?r = Copy2 _ _ _ |- _ => injection H as _ _ H; subst r
  end;
  reflexivity.

Ltac fails_fast_go :=
  repeat match goal with
         | |- fails_fast (ret _) => apply fails_fast_ret
         | |- fails_fast (bind _ _) => apply fails_fast_bind; [| intro]
         | |- fails_fast (for_each _ _) => apply fails_fast_for_each; intro
         | |- fails_fast (when ?b _) => destruct b; unfold when
         | |- fails_fast (if ?b then _ else _) => destruct b
         | |- fails_fast (match ?x with _ => _ end) => destruct x
         | |- fails_fast (let _ := _ in _) => cbv zeta
         end;
  try solve [fails_fast_prim].

Section HelperFiles.
Context {W : Type} {os : OS W}.

Lemma prepare_fails_fast sy : fails_fast (prepare (W := W) sy).
Proof. unfold prepare, copy_third_party. fails_fast_go. Qed.

Lemma prepare_prints_and_copies sy :
  sat prepare_event (fun _ => True) (prepare (W := W) sy).
Proof. unfold prepare, copy_third_party. sat_go. Qed.

Lemma scan_copies_nothing cfg :
  sat no_copy (fun _ => True) (scan (W := W) cfg).
Proof.
  unfold scan, scan_line, process_record, strip_pdb, copy_pdb, copy_step,
    run_copy.
  events_go.
Qed.

Lemma convert_copies_nothing cfg :
  sat no_copy (fun _ => True) (convert (W := W) cfg).
Proof.
  unfold convert, hide_build_restore, hide_and_build, restore, rename_back,
    verify, check_generated, cleanup, hide.
  events_go.
Qed.


End HelperFiles.

(** Nothing is on disk: the helper files cannot be copied. *)
Definition world_bare : Sim.world := Sim.with_files [] world_ok.

